(** * CV Onion: the three prompt-bound operations, their server actions
      and the page that drives them.

    The development follows the four source units:
    - [AnalyzeCv]     (ai/flows/analyze-cv.ts)
    - [MatchCvToJob]  (ai/flows/match-cv-to-job.ts)
    - [Actions]       (app/actions.ts)
    - [Page]          (app/page.tsx)

    Asynchronous code that only returns or throws is a value of [outcome];
    code that also touches the page state or a console is a function on
    [World] (state passing, a thrown value does not undo earlier writes).
    A JavaScript string is a [string], one character for each code unit,
    so that [String.length] is the [length] property. *)

From Stdlib Require Import String Ascii List NArith ZArith QArith Bool Lia.
From Stdlib Require Import DecimalNat DecimalString.
Import ListNotations.
Local Open Scope string_scope.
Local Open Scope list_scope.

(* ================================================================== *)
(** ** JavaScript values that cross a boundary *)

(** A JSON value, as the model backend answers it. A JSON number is a
    finite decimal, hence a rational. An object keeps its fields in order. *)
#[warnings="-register-all"]
Inductive json : Type :=
| JNull
| JBool (b : bool)
| JNum (q : Q)
| JStr (s : string)
| JArr (items : list json)
| JObj (fields : list (string * json)).

(** What a [throw] carries. [catch (error)] only ever asks two things of
    it: [error instanceof Error] and [error.message]. A value that is not
    an [Error] (a FileReader ProgressEvent, a thrown object or string) is
    kept as its [message] property, when it has one. *)
Inductive thrown : Type :=
| JsError (message : string)
| JsOther (message : option string).

Definition instanceof_Error (e : thrown) : bool :=
  match e with JsError _ => true | JsOther _ => false end.

(** [e.message] ([None] is [undefined]). *)
Definition message_of (e : thrown) : option string :=
  match e with JsError m => Some m | JsOther m => m end.

(** The event a FileReader hands to [onerror]: it has no [message]. *)
Definition ProgressEvent : thrown := JsOther None.

Definition TypeError (msg : string) : thrown := JsError msg.

(** The settled state of a promise. *)
Inductive outcome (A : Type) : Type :=
| Ret (a : A)
| Throw (e : thrown).
Arguments Ret {A} a.
Arguments Throw {A} e.

Definition is_rejected {A} (o : outcome A) : bool :=
  match o with Ret _ => false | Throw _ => true end.

Definition and_then {A B} (o : outcome A) (k : A -> outcome B) : outcome B :=
  match o with Ret a => k a | Throw e => Throw e end.


(** Code with effects on a state [S]: the outcome and the state it leaves.
    A throw keeps the writes made before it. *)
Definition Eff (S A : Type) : Type := S -> outcome A * S.

Definition ret {S A} (a : A) : Eff S A := fun s => (Ret a, s).

Definition throw {S A} (e : thrown) : Eff S A := fun s => (Throw e, s).

Definition await {S A} (o : outcome A) : Eff S A := fun s => (o, s).

Definition bind {S A B} (m : Eff S A) (k : A -> Eff S B) : Eff S B :=
  fun s =>
    match m s with
    | (Ret a, s') => k a s'
    | (Throw e, s') => (Throw e, s')
    end.

Definition try_catch {S A} (body : Eff S A) (handler : thrown -> Eff S A)
  : Eff S A :=
  fun s =>
    match body s with
    | (Ret a, s') => (Ret a, s')
    | (Throw e, s') => handler e s'
    end.

Definition try_finally {S A} (body : Eff S A) (cleanup : Eff S unit)
  : Eff S A :=
  fun s =>
    let (o, s') := body s in
    match cleanup s' with
    | (Ret _, s'') => (o, s'')
    | (Throw e, s'') => (Throw e, s'')
    end.

(** Run a promise to its settled state without propagating a rejection. *)
Definition settled {S A} (m : Eff S A) : Eff S (outcome A) :=
  fun s => let (o, s') := m s in (Ret o, s').

Declare Scope eff_scope.
Delimit Scope eff_scope with eff.
Notation "x <- m ;; k" := (bind m (fun x => k))
  (at level 61, m at next level, right associativity) : eff_scope.
Notation "m ;; k" := (bind m (fun _ => k))
  (at level 61, right associativity) : eff_scope.
Local Open Scope eff_scope.

(** A console: the lines written, oldest first. *)
Inductive log_entry : Type :=
| console_error (label : string) (e : thrown)
| console_warn (label : string) (e : thrown).

Definition Console : Type := list log_entry.

(* ================================================================== *)
(** ** zod: a schema is the parser it stands for *)

Module Zod.

Definition Schema (T : Type) : Type := json -> option T.

Definition z_string : Schema string :=
  fun j => match j with JStr s => Some s | _ => None end.

Definition z_number : Schema Q :=
  fun j => match j with JNum q => Some q | _ => None end.

Fixpoint parse_items {T} (item : Schema T) (xs : list json)
  : option (list T) :=
  match xs with
  | [] => Some []
  | x :: rest =>
      match item x, parse_items item rest with
      | Some v, Some vs => Some (v :: vs)
      | _, _ => None
      end
  end.

Definition z_array {T} (item : Schema T) : Schema (list T) :=
  fun j => match j with JArr xs => parse_items item xs | _ => None end.

Fixpoint assoc {T} (key : string) (table : list (string * T)) : option T :=
  match table with
  | [] => None
  | (k, v) :: rest => if String.eqb k key then Some v else assoc key rest
  end.

(** [z.enum([...])], with the value each literal is typed as. *)
Definition z_enum {T} (literals : list (string * T)) : Schema T :=
  fun j => match j with JStr s => assoc s literals | _ => None end.

(** A required key of a [z.object]. *)
Definition field {T} (fields : list (string * json)) (key : string)
           (s : Schema T) : option T :=
  match assoc key fields with
  | Some v => s v
  | None => None
  end.

(** An issue of a failed parse, at the path of a form field. *)
Record issue : Type := { path : string; message : string }.

(** [z.string().min(n, { message })]: the length is [s.length]. *)
Definition z_string_min (n : nat) (msg : string) (at_path : string)
           (s : string) : list issue :=
  if Nat.ltb (String.length s) n
  then [ {| path := at_path; message := msg |} ]
  else [].

(** [.refine(check, message)]. The check is user code: it may throw.
    A failed refinement is not fatal: zod records the issue and still
    runs the refinements chained after it; an exception in a check
    leaves the parse. *)
Definition refinement (T : Type) : Type := ((T -> outcome bool) * string)%type.

Fixpoint refine {T} (at_path : string) (checks : list (refinement T)) (v : T)
  : outcome (list issue) :=
  match checks with
  | [] => Ret []
  | (check, msg) :: rest =>
      and_then (check v) (fun ok =>
      and_then (refine at_path rest v) (fun later =>
      Ret (if ok : bool then later
           else {| path := at_path; message := msg |} :: later)))
  end.

End Zod.

(* ================================================================== *)
(** ** genkit *)

(** One part of a rendered prompt: template text, or [{{media url=...}}]. *)
Inductive part : Type :=
| Text (s : string)
| Media (url : string).

(** What a prompt call resolves to; [output] is [null] when the model
    gave no structured answer. *)
Record GenerateResponse : Type := { output : option json }.

(** TypeScript's postfix [!] is erased: [null] stays [null]. *)
Definition non_null (o : option json) : json :=
  match o with Some j => j | None => JNull end.

Definition schema_validation_failed : string :=
  "INVALID_ARGUMENT: Schema validation failed.".

(** The model backend behind [ai]: from a rendered prompt to a failure,
    no structured answer, or a JSON answer. *)
Definition Model : Type := list part -> outcome (option json).

(** Modelled from the spec: [ai.definePrompt] of '@/ai/genkit' (the
    configured client is not in the source tree). The prompt fills its
    template with the request and forwards it to the model backend. *)
Definition definePrompt {I} (model : Model) (render : I -> list part)
  : I -> outcome GenerateResponse :=
  fun input =>
    and_then (model (render input)) (fun answer =>
    Ret {| output := answer |}).

(** Modelled from the spec: [ai.defineFlow] of '@/ai/genkit' (not in the
    source tree). The flow returns the body's value coerced to the
    declared output schema and fails with a generic error when the value
    does not conform (spec, section 4.2). *)
Definition defineFlow {I O} (outputSchema : Zod.Schema O)
           (body : I -> outcome json) : I -> outcome O :=
  fun input =>
    and_then (body input) (fun raw =>
    match outputSchema raw with
    | Some o => Ret o
    | None => Throw (JsError schema_validation_failed)
    end).

(* ================================================================== *)
(** ** ai/flows/analyze-cv.ts *)

Module AnalyzeCv.

Record Input : Type := { cvDataUri : string }.

Record Output : Type :=
  { skills : list string; experience : string; qualifications : string }.

Definition OutputSchema : Zod.Schema Output :=
  fun j =>
    match j with
    | JObj fs =>
        match Zod.field fs "skills" (Zod.z_array Zod.z_string),
              Zod.field fs "experience" Zod.z_string,
              Zod.field fs "qualifications" Zod.z_string with
        | Some s, Some e, Some q =>
            Some {| skills := s; experience := e; qualifications := q |}
        | _, _, _ => None
        end
    | _ => None
    end.

Definition template (input : Input) : list part :=
  [ Text "You are an expert resume analyzer. Analyze the provided CV to identify key skills, experience, and qualifications.

CV Content: ";
    Media (cvDataUri input);
    Text "

Skills: List the key skills identified in the CV.

Experience: Summarize the relevant experience highlighted in the CV.

Qualifications: Extract the key qualifications mentioned in the CV." ].

Section Flow.
Variable model : Model.

Definition prompt : Input -> outcome GenerateResponse :=
  definePrompt model template.

Definition analyzeCvFlow : Input -> outcome Output :=
  defineFlow OutputSchema
    (fun input =>
       and_then (prompt input) (fun response =>
       Ret (non_null (output response)))).

Definition analyzeCv (input : Input) : outcome Output :=
  analyzeCvFlow input.

End Flow.

End AnalyzeCv.

(* ================================================================== *)
(** ** ai/flows/match-cv-to-job.ts *)

Inductive ColorCode : Type := green | orange | red.

Module MatchCvToJob.

Record Input : Type := { jobDescription : string; cvContent : string }.

Record Output : Type :=
  { matchScore : Q; highlightedCv : string; colorCode : ColorCode }.

Definition colorCodes : list (string * ColorCode) :=
  [ ("green", green); ("orange", orange); ("red", red) ].

Definition OutputSchema : Zod.Schema Output :=
  fun j =>
    match j with
    | JObj fs =>
        match Zod.field fs "matchScore" Zod.z_number,
              Zod.field fs "highlightedCv" Zod.z_string,
              Zod.field fs "colorCode" (Zod.z_enum colorCodes) with
        | Some s, Some h, Some c =>
            Some {| matchScore := s; highlightedCv := h; colorCode := c |}
        | _, _, _ => None
        end
    | _ => None
    end.

Definition template (input : Input) : list part :=
  [ Text ("You are an AI expert in CV analysis and job matching.

You will receive a job description and the content of a CV.
Your task is to analyze both and provide a matching score (0-100) indicating how well the CV aligns with the job requirements.
Additionally, highlight the CV content, showing the sections that match the job requirements. Finally, assign a color code based on the match score:
- Green: Score above 75%
- Orange: Score above 50% and below 75%
- Red: Score below 50%

Job Description: " ++ jobDescription input ++ "
CV Content: " ++ cvContent input) ].

Section Flow.
Variable model : Model.

Definition prompt : Input -> outcome GenerateResponse :=
  definePrompt model template.

Definition matchCvToJobFlow : Input -> outcome Output :=
  defineFlow OutputSchema
    (fun input =>
       and_then (prompt input) (fun response =>
       Ret (non_null (output response)))).

Definition matchCvToJob (input : Input) : outcome Output :=
  matchCvToJobFlow input.

End Flow.

End MatchCvToJob.

(** The types of ai/flows/analyze-job-description.ts, as the page reads
    them. The flow itself is not in the source tree: it is a parameter. *)
Module AnalyzeJobDescription.

Record Input : Type := { jobDescription : string }.

Record Output : Type :=
  { requiredSkills : list string;
    requiredExperience : string;
    requiredQualifications : string }.

Definition Flow : Type := Input -> outcome Output.

End AnalyzeJobDescription.

(* ================================================================== *)
(** ** app/actions.ts *)

Module Actions.

Definition log (entry : log_entry) : Eff Console unit :=
  fun c => (Ret tt, c ++ [entry]).

Definition new_Error (message : string) : thrown := JsError message.

(** A value inside a template literal: [undefined] prints as its name. *)
Definition interpolate (v : option string) : string :=
  match v with Some s => s | None => "undefined" end.

Section Server.
Variable model : Model.
Variable analyzeJobDescription : AnalyzeJobDescription.Flow.

Definition analyzeCvAction (input : AnalyzeCv.Input)
  : Eff Console AnalyzeCv.Output :=
  try_catch
    (result <- await (AnalyzeCv.analyzeCv model input) ;;
     ret result)
    (fun error =>
       log (console_error "Error in analyzeCvAction:" error) ;;
       if instanceof_Error error
       then throw (new_Error ("Failed to analyze CV: " ++ interpolate (message_of error)))
       else
         throw (new_Error "Failed to analyze CV due to an unknown error.")).

Definition analyzeJobDescriptionAction (input : AnalyzeJobDescription.Input)
  : Eff Console AnalyzeJobDescription.Output :=
  try_catch
    (result <- await (analyzeJobDescription input) ;;
     ret result)
    (fun error =>
       log (console_error "Error in analyzeJobDescriptionAction:" error) ;;
       if instanceof_Error error
       then throw (new_Error ("Failed to analyze job description: " ++ interpolate (message_of error)))
       else
         throw (new_Error
                  "Failed to analyze job description due to an unknown error.")).

Definition matchCvToJobAction (input : MatchCvToJob.Input)
  : Eff Console MatchCvToJob.Output :=
  try_catch
    (result <- await (MatchCvToJob.matchCvToJob model input) ;;
     ret result)
    (fun error =>
       log (console_error "Error in matchCvToJobAction:" error) ;;
       if instanceof_Error error
       then throw (new_Error ("Failed to match CV to job: " ++ interpolate (message_of error)))
       else
         throw (new_Error "Failed to match CV to job due to an unknown error.")).

End Server.

End Actions.

(* ================================================================== *)
(** ** app/page.tsx *)

Module Page.

Record File : Type := { name : string; size : N; type : string }.

Definition FileList : Type := list File.

(** The form's values as react-hook-form hands them to the resolver:
    the textarea's string and the file input's [files] ([None] is
    [undefined], the empty list is an input with no file chosen). *)
Record FormValues : Type :=
  { jobDescription : string; cvFile : option FileList }.

Definition TypeError_undefined (prop : string) : thrown :=
  TypeError ("Cannot read properties of undefined (reading '" ++ prop ++ "')").

(** [files[0].prop]: [files[0]] is [undefined] on an empty list. *)
Definition files_0 {A} (files : FileList) (prop_name : string)
           (prop : File -> A) : outcome A :=
  match files with
  | f :: _ => Ret (prop f)
  | [] => Throw (TypeError_undefined prop_name)
  end.

Definition MAX_SIZE : N := 5 * 1024 * 1024.

Definition allowed_type (t : string) : bool :=
  String.eqb t "application/pdf"
  || String.eqb t "text/plain"
  || String.eqb t
       "application/vnd.openxmlformats-officedocument.wordprocessingml.document"
  || String.eqb t "application/msword".

(** The three refinements of [cvFile]; [files && e] is [files] itself,
    hence falsy, when [files] is [undefined]. *)
Definition cvFile_refinements : list (Zod.refinement (option FileList)) :=
  [ (fun files =>
       match files with
       | None => Ret false
       | Some fs => Ret (Nat.eqb (List.length fs) 1)
       end,
     "CV file is required.");
    (fun files =>
       match files with
       | None => Ret false
       | Some fs => files_0 fs "size" (fun f => N.leb (size f) MAX_SIZE)
       end,
     "CV file size must be less than 5MB.");
    (fun files =>
       match files with
       | None => Ret false
       | Some fs => files_0 fs "type" (fun f => allowed_type (type f))
       end,
     "CV must be a PDF, DOCX, DOC, or TXT file.") ].

(** [formSchema.parseAsync(values)]: the issues found, none on success;
    the keys are parsed in the order of the declaration. *)
Definition formSchema (values : FormValues) : outcome (list Zod.issue) :=
  let description_issues :=
    Zod.z_string_min 50 "Job description must be at least 50 characters."
                     "jobDescription" (jobDescription values) in
  and_then (Zod.refine "cvFile" cvFile_refinements (cvFile values))
           (fun file_issues => Ret (description_issues ++ file_issues)).

(** [formState.errors]: the message shown under each field. *)
Record FieldErrors : Type :=
  { jobDescription_message : option string; cvFile_message : option string }.

Definition no_errors : FieldErrors :=
  {| jobDescription_message := None; cvFile_message := None |}.

Definition isEmptyObject (errors : FieldErrors) : bool :=
  match jobDescription_message errors, cvFile_message errors with
  | None, None => true
  | _, _ => false
  end.

(** The first issue at a path is the one a field keeps. *)
Fixpoint first_at (p : string) (issues : list Zod.issue) : option string :=
  match issues with
  | [] => None
  | i :: rest =>
      if String.eqb (Zod.path i) p then Some (Zod.message i)
      else first_at p rest
  end.

(** [zodResolver(formSchema)]: a ZodError becomes field errors; any other
    exception of the parse is thrown again. *)
Definition zodResolver (schema : FormValues -> outcome (list Zod.issue))
           (values : FormValues) : outcome FieldErrors :=
  and_then (schema values) (fun issues =>
  Ret {| jobDescription_message := first_at "jobDescription" issues;
         cvFile_message := first_at "cvFile" issues |}).

(** The component's state cells, and the form's [errors]. *)
Record State : Type :=
  { isLoading : bool;
    error : option string;
    cvAnalysis : option AnalyzeCv.Output;
    jobAnalysis : option AnalyzeJobDescription.Output;
    matchResult : option MatchCvToJob.Output;
    fileName : option string;
    errors : FieldErrors }.

Definition initial : State :=
  {| isLoading := false; error := None; cvAnalysis := None;
     jobAnalysis := None; matchResult := None; fileName := None;
     errors := no_errors |}.

(** A call of a server action, as it leaves the browser. *)
Inductive request : Type :=
| POST_analyzeCvAction (input : AnalyzeCv.Input)
| POST_analyzeJobDescriptionAction (input : AnalyzeJobDescription.Input)
| POST_matchCvToJobAction (input : MatchCvToJob.Input).

Record World : Type :=
  { ui : State;
    browser_console : Console;
    server_console : Console;
    network : list request }.

Definition start (s : State) : World :=
  {| ui := s; browser_console := []; server_console := []; network := [] |}.

Definition setState (f : State -> State) : Eff World unit :=
  fun w =>
    (Ret tt,
     {| ui := f (ui w); browser_console := browser_console w;
        server_console := server_console w; network := network w |}).

Definition setIsLoading (v : bool) : Eff World unit :=
  setState (fun s =>
    {| isLoading := v; error := error s; cvAnalysis := cvAnalysis s;
       jobAnalysis := jobAnalysis s; matchResult := matchResult s;
       fileName := fileName s; errors := errors s |}).

Definition setError (v : option string) : Eff World unit :=
  setState (fun s =>
    {| isLoading := isLoading s; error := v; cvAnalysis := cvAnalysis s;
       jobAnalysis := jobAnalysis s; matchResult := matchResult s;
       fileName := fileName s; errors := errors s |}).

Definition setCvAnalysis (v : option AnalyzeCv.Output) : Eff World unit :=
  setState (fun s =>
    {| isLoading := isLoading s; error := error s; cvAnalysis := v;
       jobAnalysis := jobAnalysis s; matchResult := matchResult s;
       fileName := fileName s; errors := errors s |}).

Definition setJobAnalysis (v : option AnalyzeJobDescription.Output)
  : Eff World unit :=
  setState (fun s =>
    {| isLoading := isLoading s; error := error s; cvAnalysis := cvAnalysis s;
       jobAnalysis := v; matchResult := matchResult s;
       fileName := fileName s; errors := errors s |}).

Definition setMatchResult (v : option MatchCvToJob.Output) : Eff World unit :=
  setState (fun s =>
    {| isLoading := isLoading s; error := error s; cvAnalysis := cvAnalysis s;
       jobAnalysis := jobAnalysis s; matchResult := v;
       fileName := fileName s; errors := errors s |}).

Definition setFileName (v : option string) : Eff World unit :=
  setState (fun s =>
    {| isLoading := isLoading s; error := error s; cvAnalysis := cvAnalysis s;
       jobAnalysis := jobAnalysis s; matchResult := matchResult s;
       fileName := v; errors := errors s |}).

(** react-hook-form's own state: the errors it shows. *)
Definition setFormErrors (v : FieldErrors) : Eff World unit :=
  setState (fun s =>
    {| isLoading := isLoading s; error := error s; cvAnalysis := cvAnalysis s;
       jobAnalysis := jobAnalysis s; matchResult := matchResult s;
       fileName := fileName s; errors := v |}).

Definition console (entry : log_entry) : Eff World unit :=
  fun w =>
    (Ret tt,
     {| ui := ui w; browser_console := browser_console w ++ [entry];
        server_console := server_console w; network := network w |}).

(** Calling a server action from the page: the request leaves the
    browser and the action runs against the server's console. *)
Definition remote {A} (call : request) (action : Eff Console A)
  : Eff World A :=
  fun w =>
    let (o, c) := action (server_console w) in
    (o,
     {| ui := ui w; browser_console := browser_console w;
        server_console := c; network := network w ++ [call] |}).

(** The initializer handed to [useState] in place of an effect: it runs
    on the first render only, when the watched value is still unset. *)
Definition fileName_initializer (cvFileWatcher : option FileList)
  : Eff World unit :=
  match cvFileWatcher with
  | Some (f :: _) => setFileName (Some (name f))
  | _ => setFileName None
  end.

Definition reason {A} (o : outcome A) : option thrown :=
  match o with Throw e => Some e | Ret _ => None end.

(** The rejection that settles first, [schedule] being the order in
    which the promises settle; [otherwise] when it names none of them. *)
Fixpoint first_rejection (schedule : list nat) (reasons : list (option thrown))
         (otherwise : thrown) : thrown :=
  match schedule with
  | [] => otherwise
  | i :: rest =>
      match nth i reasons None with
      | Some e => e
      | None => first_rejection rest reasons otherwise
      end
  end.

(** [Promise.all([a, b, c])]: the three calls are started in order and
    all run; the result is the triple, or the first rejection to settle. *)
Definition Promise_all {S A B C} (schedule : list nat)
           (a : Eff S A) (b : Eff S B) (c : Eff S C) : Eff S (A * B * C) :=
  oa <- settled a ;;
  ob <- settled b ;;
  oc <- settled c ;;
  let first := first_rejection schedule [reason oa; reason ob; reason oc] in
  await match oa, ob, oc with
        | Ret x, Ret y, Ret z => Ret (x, y, z)
        | Throw e, _, _ => Throw (first e)
        | Ret _, Throw e, _ => Throw (first e)
        | Ret _, Ret _, Throw e => Throw (first e)
        end.

Definition fallback_text : string :=
  "Could not extract text content from this file type for matching. Please use a .txt file for optimal matching analysis or copy/paste CV text.".

Definition unexpected_error : string :=
  "An unexpected error occurred. Please try again.".

(** [m || d] on a string or [undefined]: the empty string is falsy. *)
Definition or_default (m : option string) (d : string) : string :=
  match m with
  | Some s => if String.eqb s "" then d else s
  | None => d
  end.

Section Browser.
Variable model : Model.
Variable analyzeJobDescription : AnalyzeJobDescription.Flow.
(** What a FileReader makes of a file: [None] when [onerror] fires. *)
Variable readAsDataURL : File -> option string.
Variable readAsText : File -> option string.
(** The order in which the three server actions settle. *)
Variable schedule : list nat.

Definition readFileAsDataURL (file : File) : outcome string :=
  match readAsDataURL file with
  | Some result => Ret result
  | None => Throw ProgressEvent
  end.

Definition readFileAsText (file : File) : outcome string :=
  match readAsText file with
  | Some result => Ret result
  | None => Throw ProgressEvent
  end.

(** [data.cvFile[0]], up to its first use: an [undefined] file makes
    [readFileAsDataURL] reject with a TypeError. *)
Definition cvFile_0 (data : FormValues) : outcome File :=
  match cvFile data with
  | None => Throw (TypeError_undefined "0")
  | Some [] =>
      Throw (TypeError
        "Failed to execute 'readAsDataURL' on 'FileReader': parameter 1 is not of type 'Blob'.")
  | Some (f :: _) => Ret f
  end.

Definition onSubmitHandler (data : FormValues) : Eff World unit :=
  setIsLoading true ;;
  setError None ;;
  setCvAnalysis None ;;
  setJobAnalysis None ;;
  setMatchResult None ;;
  try_finally
    (try_catch
       (cvFile <- await (cvFile_0 data) ;;
        cvDataUri <- await (readFileAsDataURL cvFile) ;;
        cvTextContent <-
          (if String.eqb (type cvFile) "text/plain"
           then await (readFileAsText cvFile)
           else try_catch
                  (await (readFileAsText cvFile))
                  (fun textReadError =>
                     console (console_warn "Could not read file as text:"
                                           textReadError) ;;
                     ret fallback_text)) ;;
        results <-
          Promise_all schedule
            (remote
               (POST_analyzeCvAction {| AnalyzeCv.cvDataUri := cvDataUri |})
               (Actions.analyzeCvAction model
                  {| AnalyzeCv.cvDataUri := cvDataUri |}))
            (remote
               (POST_analyzeJobDescriptionAction
                  {| AnalyzeJobDescription.jobDescription :=
                       jobDescription data |})
               (Actions.analyzeJobDescriptionAction analyzeJobDescription
                  {| AnalyzeJobDescription.jobDescription :=
                       jobDescription data |}))
            (remote
               (POST_matchCvToJobAction
                  {| MatchCvToJob.jobDescription := jobDescription data;
                     MatchCvToJob.cvContent := cvTextContent |})
               (Actions.matchCvToJobAction model
                  {| MatchCvToJob.jobDescription := jobDescription data;
                     MatchCvToJob.cvContent := cvTextContent |})) ;;
        let '(cvAnalysisResult, jobAnalysisResult, matchResultData) :=
          results in
        setCvAnalysis (Some cvAnalysisResult) ;;
        setJobAnalysis (Some jobAnalysisResult) ;;
        setMatchResult (Some matchResultData))
       (fun e =>
          console (console_error "Processing error:" e) ;;
          setError (Some (or_default (message_of e) unexpected_error))))
    (setIsLoading false).

(** react-hook-form's [handleSubmit(onValid)]: the resolver runs first;
    its errors are stored and [onValid] is called only when there are
    none; an exception of the resolver rejects the submission. *)
Definition handleSubmit (onValid : FormValues -> Eff World unit)
           (values : FormValues) : Eff World unit :=
  resolved <- await (zodResolver formSchema values) ;;
  setFormErrors resolved ;;
  if isEmptyObject resolved then onValid values else ret tt.

Definition submit (values : FormValues) : Eff World unit :=
  handleSubmit onSubmitHandler values.

End Browser.

(** react-hook-form's [reset()]: the fields go back to their defaults
    and the errors are cleared. *)
Definition reset : Eff World unit := setFormErrors no_errors.

Definition handleReset : Eff World unit :=
  reset ;;
  setCvAnalysis None ;;
  setJobAnalysis None ;;
  setMatchResult None ;;
  setError None ;;
  setFileName None ;;
  setIsLoading false.

Definition getScoreBarColorClass (colorCode : option ColorCode) : string :=
  match colorCode with
  | None => "bg-muted"
  | Some green => "bg-green-500"
  | Some orange => "bg-orange-500"
  | Some red => "bg-red-500"
  end.

Definition getScoreTextColorClass (colorCode : option ColorCode) : string :=
  match colorCode with
  | None => "text-muted-foreground"
  | Some green => "text-green-600 dark:text-green-400"
  | Some orange => "text-orange-500 dark:text-orange-400"
  | Some red => "text-red-600 dark:text-red-400"
  end.

Definition LF : ascii := "010"%char.

(** [s.replace(/\n/g, replacement)]. *)
Fixpoint replace_newlines (replacement : string) (s : string) : string :=
  match s with
  | EmptyString => EmptyString
  | String c rest =>
      if Ascii.eqb c LF
      then replacement ++ replace_newlines replacement rest
      else String c (replace_newlines replacement rest)
  end.

(** What the match card shows. [innerHTML] is the markup handed to
    [dangerouslySetInnerHTML]. *)
Record MatchCard : Type :=
  { score_class : string;
    score : Q;
    bar_class : string;
    innerHTML : string }.

Definition match_card (r : MatchCvToJob.Output) : MatchCard :=
  {| score_class := getScoreTextColorClass (Some (MatchCvToJob.colorCode r));
     score := MatchCvToJob.matchScore r;
     bar_class := getScoreBarColorClass (Some (MatchCvToJob.colorCode r));
     innerHTML := replace_newlines "<br />" (MatchCvToJob.highlightedCv r) |}.

(** The conditional parts of the rendered page. *)
Record View : Type :=
  { spinner : bool;
    alert : option string;
    match_panel : option MatchCard;
    cv_panel : option AnalyzeCv.Output;
    job_panel : option AnalyzeJobDescription.Output;
    placeholder : bool }.

(** [error && ...]: the empty string is falsy. *)
Definition truthy (e : option string) : option string :=
  match e with
  | Some s => if String.eqb s "" then None else Some s
  | None => None
  end.

Definition is_null {A} (o : option A) : bool :=
  match o with Some _ => false | None => true end.

Definition render (s : State) : View :=
  {| spinner := isLoading s;
     alert := truthy (error s);
     match_panel := option_map match_card (matchResult s);
     cv_panel := cvAnalysis s;
     job_panel := jobAnalysis s;
     placeholder :=
       negb (isLoading s) && is_null (cvAnalysis s) && is_null (jobAnalysis s)
       && is_null (matchResult s) && is_null (truthy (error s)) |}.

End Page.

(** The two analysis cards of app/page.tsx. *)
Module Cards.

(** A number inside a template literal. *)
Definition decimal (i : nat) : string :=
  NilEmpty.string_of_uint (Nat.to_uint i).

(** A [<Badge key=...>text</Badge>]. *)
Record Badge : Type := { key : string; children : string }.

(** [skills.map((skill, i) => <Badge key={`${skill}-${i}`}>{skill}</Badge>)],
    from index [i] on. *)
Fixpoint badges_from (i : nat) (skills : list string) : list Badge :=
  match skills with
  | [] => []
  | skill :: rest =>
      {| key := skill ++ "-" ++ decimal i; children := skill |}
      :: badges_from (S i) rest
  end.

(** The skills of a card: the badges, or a note when there are none. *)
Inductive SkillList : Type :=
| badges (items : list Badge)
| note (text : string).

Definition skill_list (skills : list string) : SkillList :=
  if Nat.ltb 0 (List.length skills)
  then badges (badges_from 0 skills)
  else note "No specific skills identified.".

(** [text || "N/A"]. *)
Definition or_NA (text : string) : string :=
  if String.eqb text "" then "N/A" else text.

Record AnalysisCard : Type :=
  { skill_items : SkillList;
    experience_text : string;
    qualifications_text : string }.

Definition cv_card (cvAnalysis : AnalyzeCv.Output) : AnalysisCard :=
  {| skill_items := skill_list (AnalyzeCv.skills cvAnalysis);
     experience_text := or_NA (AnalyzeCv.experience cvAnalysis);
     qualifications_text := or_NA (AnalyzeCv.qualifications cvAnalysis) |}.

Definition job_card (jobAnalysis : AnalyzeJobDescription.Output)
  : AnalysisCard :=
  {| skill_items :=
       skill_list (AnalyzeJobDescription.requiredSkills jobAnalysis);
     experience_text :=
       or_NA (AnalyzeJobDescription.requiredExperience jobAnalysis);
     qualifications_text :=
       or_NA (AnalyzeJobDescription.requiredQualifications jobAnalysis) |}.

End Cards.

(* ================================================================== *)
(** ** Statements of the specification, and concrete runs *)

(** The thresholds the specification fixes: above 75 green, 51 to 75
    orange, 50 and below red. *)
Definition color_agrees_with_score (r : MatchCvToJob.Output) : Prop :=
  let s := MatchCvToJob.matchScore r in
  let c := MatchCvToJob.colorCode r in
  (75 < s -> c = green)%Q
  /\ (51 <= s /\ s <= 75 -> c = orange)%Q
  /\ (s <= 50 -> c = red)%Q.

(** An integer between 0 and 100. *)
Definition integer_0_100 (q : Q) : Prop :=
  exists n : Z, (q == inject_Z n)%Q /\ (0 <= n <= 100)%Z.

(** What section 4.2 promises of a prompt-bound operation, given the
    answer of the backend: the answer coerced to the declared shape, a
    generic error when there is no conforming answer, the backend's own
    failure otherwise. *)
Inductive conforms_or_fails {O} (schema : Zod.Schema O)
          (answer : outcome (option json)) : outcome O -> Prop :=
| returns_conforming (raw : json) (o : O) :
    answer = Ret (Some raw) -> schema raw = Some o ->
    conforms_or_fails schema answer (Ret o)
| fails_on_absent_answer :
    answer = Ret None ->
    conforms_or_fails schema answer (Throw (JsError schema_validation_failed))
| fails_on_other_shape (raw : json) :
    answer = Ret (Some raw) -> schema raw = None ->
    conforms_or_fails schema answer (Throw (JsError schema_validation_failed))
| fails_with_backend (e : thrown) :
    answer = Throw e ->
    conforms_or_fails schema answer (Throw e).

(** The three wrapped operations, by name. *)
Inductive operation : Type :=
| op_analyzeCv (input : AnalyzeCv.Input)
| op_analyzeJobDescription (input : AnalyzeJobDescription.Input)
| op_matchCvToJob (input : MatchCvToJob.Input).

Definition operation_name (op : operation) : string :=
  match op with
  | op_analyzeCv _ => "analyze CV"
  | op_analyzeJobDescription _ => "analyze job description"
  | op_matchCvToJob _ => "match CV to job"
  end.

Definition action_name (op : operation) : string :=
  match op with
  | op_analyzeCv _ => "analyzeCvAction"
  | op_analyzeJobDescription _ => "analyzeJobDescriptionAction"
  | op_matchCvToJob _ => "matchCvToJobAction"
  end.

(** The rejection of the underlying operation, if it rejects. *)
Definition underlying_rejection (model : Model)
           (analyzeJobDescription : AnalyzeJobDescription.Flow)
           (op : operation) : option thrown :=
  match op with
  | op_analyzeCv i => Page.reason (AnalyzeCv.analyzeCv model i)
  | op_analyzeJobDescription i => Page.reason (analyzeJobDescription i)
  | op_matchCvToJob i => Page.reason (MatchCvToJob.matchCvToJob model i)
  end.

(** The rejection of the action wrapper, and the console it leaves. *)
Definition action_rejection (model : Model)
           (analyzeJobDescription : AnalyzeJobDescription.Flow)
           (op : operation) (c : Console) : option thrown * Console :=
  match op with
  | op_analyzeCv i =>
      let (o, c') := Actions.analyzeCvAction model i c in (Page.reason o, c')
  | op_analyzeJobDescription i =>
      let (o, c') :=
        Actions.analyzeJobDescriptionAction analyzeJobDescription i c in
      (Page.reason o, c')
  | op_matchCvToJob i =>
      let (o, c') := Actions.matchCvToJobAction model i c in
      (Page.reason o, c')
  end.

(** The message of the wrapper's error as the specification words it:
    by whether the original error carries a message. *)
Definition message_by_presence (op : operation) (e : thrown) : string :=
  match message_of e with
  | Some m => "Failed to " ++ operation_name op ++ ": " ++ m
  | None => "Failed to " ++ operation_name op ++ " due to an unknown error."
  end.

(** The message of the wrapper's error by the test the code makes. *)
Definition message_by_instance (op : operation) (e : thrown) : string :=
  if instanceof_Error e
  then "Failed to " ++ operation_name op ++ ": " ++ Actions.interpolate (message_of e)
  else "Failed to " ++ operation_name op ++ " due to an unknown error.".

(** The outcome of a server action; it does not depend on the console. *)
Definition outcome_of {A} (action : Eff Console A) : outcome A :=
  fst (action []).

(** Splitting at a character and joining again, for the highlight. *)
Fixpoint split_on (c : ascii) (s : string) : list string :=
  match s with
  | EmptyString => [EmptyString]
  | String a rest =>
      if Ascii.eqb a c then EmptyString :: split_on c rest
      else match split_on c rest with
           | [] => [String a EmptyString]
           | line :: lines => String a line :: lines
           end
  end.

(** The page in its error state: the banner with one message, no
    result panel, no spinner. *)
Definition error_view (m : string) : Page.View :=
  {| Page.spinner := false; Page.alert := Some m; Page.match_panel := None;
     Page.cv_panel := None; Page.job_panel := None;
     Page.placeholder := false |}.

(** The three requests of one submission, in the order they leave. *)
Definition three_requests (cv : AnalyzeCv.Input)
           (job : AnalyzeJobDescription.Input) (m : MatchCvToJob.Input)
  : list Page.request :=
  [ Page.POST_analyzeCvAction cv;
    Page.POST_analyzeJobDescriptionAction job;
    Page.POST_matchCvToJobAction m ].

(** A form the schema accepts: a description of at least 50 characters
    and exactly one file, of at most 5 MB and of an allowed type. *)
Definition valid_form (values : Page.FormValues) : bool :=
  Nat.leb 50 (String.length (Page.jobDescription values))
  && match Page.cvFile values with
     | Some [f] =>
         N.leb (Page.size f) Page.MAX_SIZE
         && Page.allowed_type (Page.type f)
     | _ => false
     end.

(** What the user does with the page, with what the world answers to
    each submission. *)
Inductive user_event : Type :=
| press_submit (model : Model)
               (analyzeJobDescription : AnalyzeJobDescription.Flow)
               (readAsDataURL readAsText : Page.File -> option string)
               (schedule : list nat) (values : Page.FormValues)
| press_reset.

Definition after_event (w : Page.World) (e : user_event) : Page.World :=
  match e with
  | press_submit model analyzeJobDescription readAsDataURL readAsText
                 schedule values =>
      snd (Page.submit model analyzeJobDescription readAsDataURL readAsText
                       schedule values w)
  | press_reset => snd (Page.handleReset w)
  end.

Definition after_events (events : list user_event) (w : Page.World)
  : Page.World :=
  fold_left after_event events w.

(** The page after its first render: the watched file value is still
    [undefined] when the initializer runs. *)
Definition mounted : Page.World :=
  snd (Page.fileName_initializer None (Page.start Page.initial)).

(** What holds of the page between two events: the loading flag is off,
    no file name is displayed, the three results are there together and
    without an error or not at all, and a stored error is not empty. *)
Definition at_rest (s : Page.State) : Prop :=
  Page.isLoading s = false
  /\ Page.fileName s = None
  /\ ((Page.cvAnalysis s = None /\ Page.jobAnalysis s = None
       /\ Page.matchResult s = None)
      \/ (Page.error s = None
          /\ exists a b c,
              Page.cvAnalysis s = Some a /\ Page.jobAnalysis s = Some b
              /\ Page.matchResult s = Some c))
  /\ (Page.error s = None
      \/ exists m, Page.error s = Some m /\ String.eqb m "" = false).

(** Whether a character occurs in a string. *)
Fixpoint occurs (c : ascii) (s : string) : bool :=
  match s with
  | EmptyString => false
  | String a rest => Ascii.eqb a c || occurs c rest
  end.

(** What follows the last occurrence of a character, if it occurs. *)
Fixpoint after_last (c : ascii) (s : string) : option string :=
  match s with
  | EmptyString => None
  | String a rest =>
      match after_last c rest with
      | Some tail => Some tail
      | None => if Ascii.eqb a c then Some rest else None
      end
  end.

Module Fixtures.

Definition match_input : MatchCvToJob.Input :=
  {| MatchCvToJob.jobDescription := "Rocq engineer";
     MatchCvToJob.cvContent := "Ten years of OCaml." |}.

Definition cv_input : AnalyzeCv.Input :=
  {| AnalyzeCv.cvDataUri := "data:text/plain;base64,T0NhbWw=" |}.

Definition match_answer (score : Q) (color : string) : json :=
  JObj [ ("matchScore", JNum score);
         ("highlightedCv", JStr "<mark>Ten years</mark>
of OCaml.");
         ("colorCode", JStr color) ].

Definition cv_answer : json :=
  JObj [ ("skills", JArr [JStr "OCaml"]);
         ("experience", JStr "Ten years.");
         ("qualifications", JStr "MSc") ].

(** A backend that gives every match prompt the same answer, and every
    CV prompt [cv_answer]. *)
Definition answering (match_json : json) : Model :=
  fun parts =>
    match parts with
    | [Text _] => Ret (Some match_json)
    | _ => Ret (Some cv_answer)
    end.

(** A backend that always fails with [e]. *)
Definition failing (e : thrown) : Model := fun _ => Throw e.

Definition job_flow : AnalyzeJobDescription.Flow :=
  fun _ =>
    Ret {| AnalyzeJobDescription.requiredSkills := ["Rocq"];
           AnalyzeJobDescription.requiredExperience := "Five years.";
           AnalyzeJobDescription.requiredQualifications := "BSc" |}.

Definition failing_job_flow (e : thrown) : AnalyzeJobDescription.Flow :=
  fun _ => Throw e.

Definition long_description : string :=
  "Senior Rocq engineer for a verified compiler team.".

Definition txt_file : Page.File :=
  {| Page.name := "cv.txt"; Page.size := 2048; Page.type := "text/plain" |}.

Definition pdf_file : Page.File :=
  {| Page.name := "cv.pdf"; Page.size := 2048;
     Page.type := "application/pdf" |}.

Definition reads (content : string) : Page.File -> option string :=
  fun _ => Some content.

Definition read_fails : Page.File -> option string := fun _ => None.

Definition with_file (f : Page.File) : Page.FormValues :=
  {| Page.jobDescription := long_description; Page.cvFile := Some [f] |}.

(** A short description and a file input with no file chosen. *)
Definition short_without_file : Page.FormValues :=
  {| Page.jobDescription := "Rocq engineer"; Page.cvFile := Some [] |}.

Definition long_without_file : Page.FormValues :=
  {| Page.jobDescription := long_description; Page.cvFile := Some [] |}.

End Fixtures.

(* ================================================================== *)
(** ** The prompt-bound operations *)

Section FlowFacts.
Variable model : Model.

(** A flow over a prompt, for any schema that rejects [null]. *)
Lemma flow_conforms_or_fails {I O} (schema : Zod.Schema O)
      (render : I -> list part) (input : I) :
  schema JNull = None ->
  conforms_or_fails schema (model (render input))
    (defineFlow schema
       (fun i => and_then (definePrompt model render i)
                          (fun response => Ret (non_null (output response))))
       input).
Proof.
  intros Null. unfold defineFlow, definePrompt.
  destruct (model (render input)) as [[raw | ] | e] eqn:Answer; simpl.
  - destruct (schema raw) as [o | ] eqn:Parsed.
    + now apply returns_conforming with raw.
    + now apply fails_on_other_shape with raw.
  - rewrite Null. now apply fails_on_absent_answer.
  - now apply fails_with_backend.
Qed.

(** A returned value is the backend's answer, parsed. *)
Lemma conforms_or_fails_returned {O} (schema : Zod.Schema O)
      (answer : outcome (option json)) (o : O) :
  conforms_or_fails schema answer (Ret o) ->
  exists raw, answer = Ret (Some raw) /\ schema raw = Some o.
Proof.
  intros H. inversion H; subst. eauto.
Qed.

Lemma matchCvToJob_returned (input : MatchCvToJob.Input)
      (r : MatchCvToJob.Output) :
  MatchCvToJob.matchCvToJob model input = Ret r ->
  exists raw,
    model (MatchCvToJob.template input) = Ret (Some raw)
    /\ MatchCvToJob.OutputSchema raw = Some r.
Proof.
  intros Run. apply conforms_or_fails_returned. rewrite <- Run.
  now apply (flow_conforms_or_fails MatchCvToJob.OutputSchema).
Qed.

End FlowFacts.

Lemma assoc_In {T} (key : string) (table : list (string * T)) (v : T) :
  Zod.assoc key table = Some v -> In (key, v) table.
Proof.
  induction table as [ | [k x] rest IH]; simpl; [discriminate | ].
  destruct (String.eqb_spec k key) as [-> | _].
  - intros [= ->]. now left.
  - intros Found. right. now apply IH.
Qed.

(** The fields of an answer that the match schema accepts. *)
Lemma match_schema_fields (raw : json) (r : MatchCvToJob.Output) :
  MatchCvToJob.OutputSchema raw = Some r ->
  exists fs label,
    raw = JObj fs
    /\ Zod.assoc "matchScore" fs = Some (JNum (MatchCvToJob.matchScore r))
    /\ Zod.assoc "highlightedCv" fs
       = Some (JStr (MatchCvToJob.highlightedCv r))
    /\ Zod.assoc "colorCode" fs = Some (JStr label)
    /\ Zod.assoc label MatchCvToJob.colorCodes
       = Some (MatchCvToJob.colorCode r).
Proof.
  unfold MatchCvToJob.OutputSchema, Zod.field, Zod.z_number, Zod.z_string,
    Zod.z_enum.
  intros Parsed.
  destruct raw as [ | | | | | fs]; try discriminate.
  destruct (Zod.assoc "matchScore" fs) as [[ | | q | | | ] | ] eqn:Score;
    cbv beta iota in Parsed; try discriminate.
  destruct (Zod.assoc "highlightedCv" fs) as [[ | | | h | | ] | ] eqn:Text;
    cbv beta iota in Parsed; try discriminate.
  destruct (Zod.assoc "colorCode" fs) as [[ | | | label | | ] | ] eqn:Color;
    cbv beta iota in Parsed; try discriminate.
  destruct (Zod.assoc label MatchCvToJob.colorCodes) as [c | ] eqn:Label;
    try discriminate.
  injection Parsed as <-. exists fs, label. cbn [MatchCvToJob.matchScore
    MatchCvToJob.highlightedCv MatchCvToJob.colorCode]. auto.
Qed.

(** The match action returns exactly what its flow returns. *)
Lemma matchCvToJobAction_returned (model : Model)
      (input : MatchCvToJob.Input) (c c' : Console)
      (r : MatchCvToJob.Output) :
  Actions.matchCvToJobAction model input c = (Ret r, c') ->
  MatchCvToJob.matchCvToJob model input = Ret r.
Proof.
  unfold Actions.matchCvToJobAction, try_catch, bind, await, ret, throw.
  destruct (MatchCvToJob.matchCvToJob model input) as [r0 | e]; simpl.
  - now intros [= ->].
  - unfold Actions.log. destruct (instanceof_Error e); discriminate.
Qed.

(** A successful match response is the backend's answer, field by field. *)
Lemma match_response_is_the_answer (model : Model)
      (input : MatchCvToJob.Input) (c c' : Console)
      (r : MatchCvToJob.Output) :
  Actions.matchCvToJobAction model input c = (Ret r, c') ->
  exists fs label,
    model (MatchCvToJob.template input) = Ret (Some (JObj fs))
    /\ Zod.assoc "matchScore" fs = Some (JNum (MatchCvToJob.matchScore r))
    /\ Zod.assoc "highlightedCv" fs
       = Some (JStr (MatchCvToJob.highlightedCv r))
    /\ Zod.assoc "colorCode" fs = Some (JStr label)
    /\ Zod.assoc label MatchCvToJob.colorCodes
       = Some (MatchCvToJob.colorCode r).
Proof.
  intros Run. apply matchCvToJobAction_returned in Run.
  apply matchCvToJob_returned in Run as (raw & Answer & Parsed).
  apply match_schema_fields in Parsed as (fs & label & -> & Fields).
  exists fs, label. auto.
Qed.

(** C3. Each prompt-bound operation, [analyzeCv] and [matchCvToJob],
    either returns the backend's answer coerced to its declared output
    schema or fails: with a generic error when the backend gave no answer
    or one of another shape, with the backend's error when it failed. *)
Theorem prompt_bound_operations_conform_or_fail
        (model : Model) (cv : AnalyzeCv.Input) (job : MatchCvToJob.Input) :
  conforms_or_fails AnalyzeCv.OutputSchema
    (model (AnalyzeCv.template cv)) (AnalyzeCv.analyzeCv model cv)
  /\ conforms_or_fails MatchCvToJob.OutputSchema
       (model (MatchCvToJob.template job))
       (MatchCvToJob.matchCvToJob model job).
Proof.
  split.
  - now apply (flow_conforms_or_fails model AnalyzeCv.OutputSchema).
  - now apply (flow_conforms_or_fails model MatchCvToJob.OutputSchema).
Qed.

(* ================================================================== *)
(** ** The match response: score and color *)

(** C1, as stated, fails: a backend that answers a score of 100 with the
    color red is returned as it is. *)
Lemma color_may_disagree_with_score :
  let r := {| MatchCvToJob.matchScore := 100;
              MatchCvToJob.highlightedCv := "<mark>Ten years</mark>
of OCaml.";
              MatchCvToJob.colorCode := red |} in
  Actions.matchCvToJobAction
    (Fixtures.answering (Fixtures.match_answer 100 "red"))
    Fixtures.match_input [] = (Ret r, [])
  /\ ~ color_agrees_with_score r.
Proof.
  split; [reflexivity | ].
  intros (Green & _). simpl in Green.
  assert (red = green) by (apply Green; reflexivity). discriminate.
Qed.

(** C1, amended. The color code of a successful match response is one of
    the three literals and is, with the score, the pair the backend
    answered: the response agrees with the thresholds exactly when the
    backend's answer does. *)
Theorem color_code_is_the_backend_answer (model : Model)
        (input : MatchCvToJob.Input) (c c' : Console)
        (r : MatchCvToJob.Output) :
  Actions.matchCvToJobAction model input c = (Ret r, c') ->
  exists fs label,
    model (MatchCvToJob.template input) = Ret (Some (JObj fs))
    /\ Zod.assoc "matchScore" fs = Some (JNum (MatchCvToJob.matchScore r))
    /\ Zod.assoc "colorCode" fs = Some (JStr label)
    /\ In (label, MatchCvToJob.colorCode r)
          [("green", green); ("orange", orange); ("red", red)].
Proof.
  intros Run.
  destruct (match_response_is_the_answer _ _ _ _ _ Run)
    as (fs & label & Answer & Score & _ & Color & Label).
  exists fs, label. repeat split; auto.
  now apply assoc_In in Label.
Qed.

Lemma color_code_is_the_backend_answer_witness :
  exists fs label,
    Fixtures.answering (Fixtures.match_answer 82 "green")
                       (MatchCvToJob.template Fixtures.match_input)
    = Ret (Some (JObj fs))
    /\ Zod.assoc "matchScore" fs = Some (JNum 82)
    /\ Zod.assoc "colorCode" fs = Some (JStr label)
    /\ In (label, green) [("green", green); ("orange", orange); ("red", red)].
Proof.
  apply (color_code_is_the_backend_answer
           (Fixtures.answering (Fixtures.match_answer 82 "green"))
           Fixtures.match_input [] []
           {| MatchCvToJob.matchScore := 82;
              MatchCvToJob.highlightedCv := "<mark>Ten years</mark>
of OCaml.";
              MatchCvToJob.colorCode := green |}).
  reflexivity.
Defined.

(** C6, as stated, fails: a score of 150 is out of range, a score of
    75.5 is not an integer, and both are returned. *)
Lemma score_may_leave_the_range :
  (let r := {| MatchCvToJob.matchScore := 150;
               MatchCvToJob.highlightedCv := "<mark>Ten years</mark>
of OCaml.";
               MatchCvToJob.colorCode := green |} in
   Actions.matchCvToJobAction
     (Fixtures.answering (Fixtures.match_answer 150 "green"))
     Fixtures.match_input [] = (Ret r, [])
   /\ ~ integer_0_100 (MatchCvToJob.matchScore r))
  /\
  (let r := {| MatchCvToJob.matchScore := 151 # 2;
               MatchCvToJob.highlightedCv := "<mark>Ten years</mark>
of OCaml.";
               MatchCvToJob.colorCode := green |} in
   Actions.matchCvToJobAction
     (Fixtures.answering (Fixtures.match_answer (151 # 2) "green"))
     Fixtures.match_input [] = (Ret r, [])
   /\ ~ integer_0_100 (MatchCvToJob.matchScore r)).
Proof.
  split; (split; [reflexivity | ]);
    intros (n & Eq & Range); unfold Qeq in Eq; simpl in Eq; lia.
Qed.

(** C6, amended. The score of a successful match response is a number:
    the JSON number the backend answered, unchanged. *)
Theorem match_score_is_the_backend_number (model : Model)
        (input : MatchCvToJob.Input) (c c' : Console)
        (r : MatchCvToJob.Output) :
  Actions.matchCvToJobAction model input c = (Ret r, c') ->
  exists fs,
    model (MatchCvToJob.template input) = Ret (Some (JObj fs))
    /\ Zod.assoc "matchScore" fs = Some (JNum (MatchCvToJob.matchScore r)).
Proof.
  intros Run.
  destruct (match_response_is_the_answer _ _ _ _ _ Run)
    as (fs & label & Answer & Score & _).
  exists fs. auto.
Qed.

Lemma match_score_is_the_backend_number_witness :
  exists fs,
    Fixtures.answering (Fixtures.match_answer 150 "green")
                       (MatchCvToJob.template Fixtures.match_input)
    = Ret (Some (JObj fs))
    /\ Zod.assoc "matchScore" fs = Some (JNum 150).
Proof.
  apply (match_score_is_the_backend_number
           (Fixtures.answering (Fixtures.match_answer 150 "green"))
           Fixtures.match_input [] []
           {| MatchCvToJob.matchScore := 150;
              MatchCvToJob.highlightedCv := "<mark>Ten years</mark>
of OCaml.";
              MatchCvToJob.colorCode := green |}).
  reflexivity.
Defined.

(* ================================================================== *)
(** ** The action wrappers *)

(** C5, as stated, fails: a thrown value that is not an [Error] but
    carries a message gets the unknown-error message. *)
Lemma unknown_error_despite_a_message :
  let e := JsOther (Some "quota exceeded") in
  let op := op_analyzeCv Fixtures.cv_input in
  underlying_rejection (Fixtures.failing e) Fixtures.job_flow op = Some e
  /\ message_of e = Some "quota exceeded"
  /\ fst (action_rejection (Fixtures.failing e) Fixtures.job_flow op [])
     = Some (JsError "Failed to analyze CV due to an unknown error.")
  /\ fst (action_rejection (Fixtures.failing e) Fixtures.job_flow op [])
     <> Some (JsError (message_by_presence op e)).
Proof.
  repeat split; try reflexivity. discriminate.
Qed.

(** C5, amended. When the underlying operation throws, the action
    wrapper logs the thrown value and fails with a new error: "Failed to
    <operation>: <message>" when the value is an [Error], the
    unknown-error message when it is anything else. *)
Theorem action_wraps_the_original_error
        (model : Model) (analyzeJobDescription : AnalyzeJobDescription.Flow)
        (op : operation) (e : thrown) (c : Console) :
  underlying_rejection model analyzeJobDescription op = Some e ->
  action_rejection model analyzeJobDescription op c
  = (Some (JsError (message_by_instance op e)),
     c ++ [console_error ("Error in " ++ action_name op ++ ":") e]).
Proof.
  destruct op as [i | i | i]; simpl;
    unfold Actions.analyzeCvAction, Actions.analyzeJobDescriptionAction,
      Actions.matchCvToJobAction, try_catch, bind, await, ret, throw,
      Actions.log, message_by_instance.
  - destruct (AnalyzeCv.analyzeCv model i) as [r | e0]; simpl;
      [discriminate | intros [= ->]]; now destruct e.
  - destruct (analyzeJobDescription i) as [r | e0]; simpl;
      [discriminate | intros [= ->]]; now destruct e.
  - destruct (MatchCvToJob.matchCvToJob model i) as [r | e0]; simpl;
      [discriminate | intros [= ->]]; now destruct e.
Qed.

Lemma action_wraps_the_original_error_witness :
  action_rejection (Fixtures.failing (JsError "model overloaded"))
                   Fixtures.job_flow
                   (op_matchCvToJob Fixtures.match_input) []
  = (Some (JsError "Failed to match CV to job: model overloaded"),
     [console_error "Error in matchCvToJobAction:"
                    (JsError "model overloaded")]).
Proof.
  apply (action_wraps_the_original_error
           (Fixtures.failing (JsError "model overloaded")) Fixtures.job_flow
           (op_matchCvToJob Fixtures.match_input)
           (JsError "model overloaded") []).
  reflexivity.
Defined.

(** The outcome of an action does not depend on the server's console,
    which only grows. *)
Lemma analyzeCvAction_run (model : Model) (i : AnalyzeCv.Input)
      (c : Console) :
  Actions.analyzeCvAction model i c
  = (outcome_of (Actions.analyzeCvAction model i),
     c ++ snd (Actions.analyzeCvAction model i [])).
Proof.
  unfold outcome_of, Actions.analyzeCvAction, try_catch, bind, await, ret,
    throw, Actions.log.
  destruct (AnalyzeCv.analyzeCv model i) as [r | e]; simpl.
  - now rewrite app_nil_r.
  - now destruct e.
Qed.

Lemma analyzeJobDescriptionAction_run
      (flow : AnalyzeJobDescription.Flow) (i : AnalyzeJobDescription.Input)
      (c : Console) :
  Actions.analyzeJobDescriptionAction flow i c
  = (outcome_of (Actions.analyzeJobDescriptionAction flow i),
     c ++ snd (Actions.analyzeJobDescriptionAction flow i [])).
Proof.
  unfold outcome_of, Actions.analyzeJobDescriptionAction, try_catch, bind,
    await, ret, throw, Actions.log.
  destruct (flow i) as [r | e]; simpl.
  - now rewrite app_nil_r.
  - now destruct e.
Qed.

Lemma matchCvToJobAction_run (model : Model) (i : MatchCvToJob.Input)
      (c : Console) :
  Actions.matchCvToJobAction model i c
  = (outcome_of (Actions.matchCvToJobAction model i),
     c ++ snd (Actions.matchCvToJobAction model i [])).
Proof.
  unfold outcome_of, Actions.matchCvToJobAction, try_catch, bind, await, ret,
    throw, Actions.log.
  destruct (MatchCvToJob.matchCvToJob model i) as [r | e]; simpl.
  - now rewrite app_nil_r.
  - now destruct e.
Qed.

(* ================================================================== *)
(** ** The highlighted CV *)

Lemma split_on_nonempty (c : ascii) (s : string) : split_on c s <> [].
Proof.
  destruct s as [ | a rest]; simpl; [discriminate | ].
  destruct (Ascii.eqb a c); [discriminate | ].
  destruct (split_on c rest); discriminate.
Qed.

(** Replacing every newline is splitting at the newlines and joining
    the pieces with the replacement. *)
Lemma replace_newlines_split_join (replacement s : string) :
  Page.replace_newlines replacement s
  = String.concat replacement (split_on Page.LF s).
Proof.
  induction s as [ | a rest IH]; simpl; [reflexivity | ].
  pose proof (split_on_nonempty Page.LF rest) as Nonempty.
  destruct (Ascii.eqb a Page.LF).
  - rewrite IH. destruct (split_on Page.LF rest); [contradiction | ].
    reflexivity.
  - rewrite IH. destruct (split_on Page.LF rest) as [ | line lines];
      [contradiction | ].
    destruct lines; reflexivity.
Qed.

(** Text without a newline reaches the page as it is. *)
Lemma replace_newlines_without_newline (replacement s : string) :
  split_on Page.LF s = [s] -> Page.replace_newlines replacement s = s.
Proof.
  intros Single. now rewrite replace_newlines_split_join, Single.
Qed.

(** C10. For a successful match response, the markup of the highlight
    panel is the [highlightedCv] string the backend answered, with every
    newline replaced by a line-break tag and nothing else changed: the
    pieces between the newlines are injected as they are. *)
Theorem highlight_is_injected_with_line_breaks_only (model : Model)
        (input : MatchCvToJob.Input) (c c' : Console)
        (r : MatchCvToJob.Output) :
  Actions.matchCvToJobAction model input c = (Ret r, c') ->
  exists fs s,
    model (MatchCvToJob.template input) = Ret (Some (JObj fs))
    /\ Zod.assoc "highlightedCv" fs = Some (JStr s)
    /\ forall st : Page.State,
        Page.matchResult st = Some r ->
        option_map Page.innerHTML (Page.match_panel (Page.render st))
        = Some (String.concat "<br />" (split_on Page.LF s)).
Proof.
  intros Run.
  destruct (match_response_is_the_answer _ _ _ _ _ Run)
    as (fs & label & Answer & _ & Highlight & _).
  exists fs, (MatchCvToJob.highlightedCv r). repeat split; auto.
  intros st Stored. unfold Page.render. cbn [Page.match_panel].
  rewrite Stored. cbn [option_map Page.match_card Page.innerHTML].
  now rewrite replace_newlines_split_join.
Qed.

Lemma highlight_is_injected_with_line_breaks_only_witness :
  exists fs s,
    Fixtures.answering (Fixtures.match_answer 82 "green")
                       (MatchCvToJob.template Fixtures.match_input)
    = Ret (Some (JObj fs))
    /\ Zod.assoc "highlightedCv" fs = Some (JStr s)
    /\ forall st : Page.State,
        Page.matchResult st
        = Some {| MatchCvToJob.matchScore := 82;
                  MatchCvToJob.highlightedCv := "<mark>Ten years</mark>
of OCaml.";
                  MatchCvToJob.colorCode := green |} ->
        option_map Page.innerHTML (Page.match_panel (Page.render st))
        = Some (String.concat "<br />" (split_on Page.LF s)).
Proof.
  apply (highlight_is_injected_with_line_breaks_only
           (Fixtures.answering (Fixtures.match_answer 82 "green"))
           Fixtures.match_input [] []).
  reflexivity.
Defined.

(** The fixture's highlight, as the page injects it. *)
Example highlight_of_the_fixture :
  Page.innerHTML
    (Page.match_card
       {| MatchCvToJob.matchScore := 82;
          MatchCvToJob.highlightedCv := "<mark>Ten years</mark>
of OCaml.";
          MatchCvToJob.colorCode := green |})
  = "<mark>Ten years</mark><br />of OCaml.".
Proof. reflexivity. Qed.

(* ================================================================== *)
(** ** The page: submitting *)

Lemma or_default_truthy (m : option string) :
  Page.truthy (Some (Page.or_default m Page.unexpected_error))
  = Some (Page.or_default m Page.unexpected_error).
Proof.
  unfold Page.truthy, Page.or_default.
  destruct m as [s | ]; [ | reflexivity].
  destruct (String.eqb s "") eqn:Empty; [reflexivity | now rewrite Empty].
Qed.

(** What the page shows once the handler's [catch] has run. *)
Lemma render_failed (e : thrown) (name : option string)
      (errs : Page.FieldErrors) :
  Page.render
    {| Page.isLoading := false;
       Page.error :=
         Some (Page.or_default (message_of e) Page.unexpected_error);
       Page.cvAnalysis := None; Page.jobAnalysis := None;
       Page.matchResult := None; Page.fileName := name;
       Page.errors := errs |}
  = error_view (Page.or_default (message_of e) Page.unexpected_error).
Proof.
  unfold Page.render, error_view.
  cbn [Page.isLoading Page.error Page.cvAnalysis Page.jobAnalysis
       Page.matchResult option_map Page.is_null negb andb].
  now rewrite or_default_truthy.
Qed.

Lemma not_grown {A} (l extra : list A) : extra <> [] -> l <> l ++ extra.
Proof.
  intros Nonempty Eq. apply (f_equal (@List.length A)) in Eq.
  rewrite length_app in Eq.
  destruct extra; [contradiction | simpl in Eq; lia].
Qed.

#[local] Arguments String.eqb : simpl never.
#[local] Arguments Page.or_default : simpl never.
#[local] Arguments Actions.analyzeCvAction : simpl never.
#[local] Arguments Actions.analyzeJobDescriptionAction : simpl never.
#[local] Arguments Actions.matchCvToJobAction : simpl never.
#[local] Arguments Page.cvFile_0 : simpl never.
#[local] Arguments Page.first_rejection : simpl never.
#[local] Arguments Page.render : simpl never.
#[local] Arguments Page.zodResolver : simpl never.
#[local] Arguments Page.isEmptyObject : simpl never.

(** Run the handler symbolically, down to the reads and the actions. *)
Ltac run_handler :=
  unfold Page.onSubmitHandler, Page.Promise_all, try_finally, try_catch, bind,
    settled, await, ret, throw, Page.remote, Page.setIsLoading, Page.setError,
    Page.setCvAnalysis, Page.setJobAnalysis, Page.setMatchResult,
    Page.setState, Page.console, Page.readFileAsDataURL, Page.readFileAsText;
  cbn.

(** A run that sent nothing cannot have sent three requests. *)
Ltac no_request H :=
  exfalso; revert H; apply not_grown; discriminate.

Ltac run_actions :=
  rewrite analyzeCvAction_run, analyzeJobDescriptionAction_run,
    matchCvToJobAction_run; cbn.

Section Submission.
Variable model : Model.
Variable analyzeJobDescription : AnalyzeJobDescription.Flow.
Variable readAsDataURL : Page.File -> option string.
Variable readAsText : Page.File -> option string.
Variable schedule : list nat.

#[local] Abbreviation onSubmitHandler :=
  (Page.onSubmitHandler model analyzeJobDescription readAsDataURL readAsText
                        schedule).
#[local] Abbreviation submit :=
  (Page.submit model analyzeJobDescription readAsDataURL readAsText schedule).

(** The handler, once the three requests are out and one is rejected. *)
Lemma onSubmitHandler_rejection (data : Page.FormValues) (w : Page.World)
      (cv : AnalyzeCv.Input) (job : AnalyzeJobDescription.Input)
      (m : MatchCvToJob.Input) :
  Page.network (snd (onSubmitHandler data w))
  = Page.network w ++ three_requests cv job m ->
  is_rejected (outcome_of (Actions.analyzeCvAction model cv))
  || is_rejected
       (outcome_of
          (Actions.analyzeJobDescriptionAction analyzeJobDescription job))
  || is_rejected (outcome_of (Actions.matchCvToJobAction model m)) = true ->
  exists message,
    Page.render (Page.ui (snd (onSubmitHandler data w))) = error_view message.
Proof.
  unfold three_requests. run_handler.
  destruct (Page.cvFile_0 data) as [f | e]; cbn;
    [ | intros Sent; no_request Sent].
  destruct (readAsDataURL f) as [uri | ]; cbn;
    [ | intros Sent; no_request Sent].
  destruct (String.eqb (Page.type f) "text/plain"); cbn;
    (destruct (readAsText f) as [txt | ]; cbn;
     [ | try (intros Sent; no_request Sent)]);
    run_actions.
  all: destruct (outcome_of (Actions.analyzeCvAction model _))
         as [a | ea] eqn:Cv;
       destruct (outcome_of (Actions.analyzeJobDescriptionAction _ _))
         as [b | eb] eqn:Job;
       destruct (outcome_of (Actions.matchCvToJobAction model _))
         as [c | ec] eqn:Match;
       cbn; intros Sent; rewrite <- !app_assoc in Sent;
       apply app_inv_head in Sent; cbn in Sent;
       injection Sent as <- <- <-; rewrite Cv, Job, Match; cbn;
       intros Rejected; try discriminate Rejected;
       rewrite render_failed; eauto.
Qed.

(** C2. In every submission whose three requests went out and of which
    at least one was rejected, whichever and in whatever order they
    settle, the page ends showing the error banner with one message and
    none of the three result panels. *)
Theorem no_partial_success (values : Page.FormValues) (w : Page.World)
        (cv : AnalyzeCv.Input) (job : AnalyzeJobDescription.Input)
        (m : MatchCvToJob.Input) :
  Page.network (snd (submit values w))
  = Page.network w ++ three_requests cv job m ->
  is_rejected (outcome_of (Actions.analyzeCvAction model cv))
  || is_rejected
       (outcome_of
          (Actions.analyzeJobDescriptionAction analyzeJobDescription job))
  || is_rejected (outcome_of (Actions.matchCvToJobAction model m)) = true ->
  exists message,
    Page.render (Page.ui (snd (submit values w))) = error_view message.
Proof.
  unfold Page.submit, Page.handleSubmit, bind, await.
  destruct (Page.zodResolver Page.formSchema values) as [resolved | e];
    [ | intros Sent; no_request Sent].
  unfold Page.setFormErrors, Page.setState at 1.
  destruct (Page.isEmptyObject resolved).
  - intros Sent Rejected.
    exact (onSubmitHandler_rejection values _ cv job m Sent Rejected).
  - intros Sent. no_request Sent.
Qed.

(** C4, amended. For a file whose type is not text/plain and whose
    data URL could be read, when decoding it as text fails the failure is
    logged as a warning and the three requests still go out, the match
    request carrying the fallback text as its CV content. *)
Theorem unreadable_binary_file_falls_back (data : Page.FormValues)
        (w : Page.World) (f : Page.File) (rest : Page.FileList)
        (uri : string) :
  Page.cvFile data = Some (f :: rest) ->
  String.eqb (Page.type f) "text/plain" = false ->
  readAsDataURL f = Some uri ->
  readAsText f = None ->
  Page.network (snd (onSubmitHandler data w))
  = Page.network w
    ++ three_requests
         {| AnalyzeCv.cvDataUri := uri |}
         {| AnalyzeJobDescription.jobDescription := Page.jobDescription data |}
         {| MatchCvToJob.jobDescription := Page.jobDescription data;
            MatchCvToJob.cvContent := Page.fallback_text |}
  /\ exists later,
      Page.browser_console (snd (onSubmitHandler data w))
      = Page.browser_console w
        ++ console_warn "Could not read file as text:" ProgressEvent :: later.
Proof.
  intros Attached Binary Url Text.
  unfold three_requests. run_handler.
  unfold Page.cvFile_0. rewrite Attached. cbn.
  rewrite Url. cbn. rewrite Binary, Text. cbn. run_actions.
  destruct (outcome_of (Actions.analyzeCvAction model _));
    destruct (outcome_of (Actions.analyzeJobDescriptionAction _ _));
    destruct (outcome_of (Actions.matchCvToJobAction model _));
    cbn; rewrite <- ?app_assoc; (split; [reflexivity | eexists; reflexivity]).
Qed.

(** What the resolver makes of a form with at least one file. *)
Lemma zodResolver_with_file (values : Page.FormValues) (f : Page.File)
      (rest : Page.FileList) :
  Page.cvFile values = Some (f :: rest) ->
  Page.zodResolver Page.formSchema values
  = Ret {| Page.jobDescription_message :=
             if Nat.ltb (String.length (Page.jobDescription values)) 50
             then Some "Job description must be at least 50 characters."
             else None;
           Page.cvFile_message :=
             if negb (Nat.eqb (List.length (f :: rest)) 1)
             then Some "CV file is required."
             else if negb (N.leb (Page.size f) Page.MAX_SIZE)
             then Some "CV file size must be less than 5MB."
             else if negb (Page.allowed_type (Page.type f))
             then Some "CV must be a PDF, DOCX, DOC, or TXT file."
             else None |}.
Proof.
  intros Attached.
  unfold Page.zodResolver, Page.formSchema, Zod.z_string_min.
  rewrite Attached. unfold Page.cvFile_refinements, Zod.refine, Page.files_0,
    and_then.
  destruct (Nat.ltb (String.length (Page.jobDescription values)) 50);
    destruct (Nat.eqb (List.length (f :: rest)) 1);
    destruct (N.leb (Page.size f) Page.MAX_SIZE);
    destruct (Page.allowed_type (Page.type f)); reflexivity.
Qed.

(** A form whose file input is unset gets the required-file message. *)
Lemma zodResolver_unset_file (values : Page.FormValues) :
  Page.cvFile values = None ->
  Page.cvFile_message
    (match Page.zodResolver Page.formSchema values with
     | Ret resolved => resolved
     | Throw _ => Page.no_errors
     end)
  = Some "CV file is required.".
Proof.
  intros Unset.
  unfold Page.zodResolver, Page.formSchema, Zod.z_string_min.
  rewrite Unset.
  destruct (Nat.ltb (String.length (Page.jobDescription values)) 50);
    reflexivity.
Qed.

(** With no file chosen, the second refinement reads [files[0].size]
    and the resolver throws, whatever the description. *)
Lemma zodResolver_without_file (description : string) :
  Page.zodResolver Page.formSchema
    {| Page.jobDescription := description; Page.cvFile := Some [] |}
  = Throw (Page.TypeError_undefined "size").
Proof. reflexivity. Qed.

(** A submission the resolver rejects only stores the field errors. *)
Lemma submit_blocked (values : Page.FormValues) (w : Page.World)
      (resolved : Page.FieldErrors) :
  Page.zodResolver Page.formSchema values = Ret resolved ->
  Page.isEmptyObject resolved = false ->
  submit values w = Page.setFormErrors resolved w.
Proof.
  intros Resolved Errors.
  unfold Page.submit, Page.handleSubmit, bind, await.
  rewrite Resolved. unfold Page.setFormErrors, Page.setState at 1.
  rewrite Errors. reflexivity.
Qed.

(** X17. With a file attached, a description shorter than 50 characters
    blocks the submission with the length message and nothing is sent. *)
Lemma short_description_is_blocked (values : Page.FormValues)
      (w : Page.World) (f : Page.File) (rest : Page.FileList) :
  Page.cvFile values = Some (f :: rest) ->
  (String.length (Page.jobDescription values) < 50)%nat ->
  exists resolved,
    submit values w = Page.setFormErrors resolved w
    /\ Page.jobDescription_message resolved
       = Some "Job description must be at least 50 characters."
    /\ Page.network (snd (submit values w)) = Page.network w.
Proof.
  intros Attached Short.
  pose proof (zodResolver_with_file values f rest Attached) as Resolved.
  apply Nat.ltb_lt in Short. rewrite Short in Resolved.
  eexists. split; [ | split].
  - apply submit_blocked; [exact Resolved | reflexivity].
  - reflexivity.
  - erewrite submit_blocked; [reflexivity | exact Resolved | reflexivity].
Qed.

(** X18. With a file attached, more than one file, a first file over
    5 MB or a first file of another type blocks the submission with a
    message under the file field and nothing is sent. *)
Lemma bad_file_is_blocked (values : Page.FormValues) (w : Page.World)
      (f : Page.File) (rest : Page.FileList) :
  Page.cvFile values = Some (f :: rest) ->
  rest <> [] \/ (Page.MAX_SIZE < Page.size f)%N
  \/ Page.allowed_type (Page.type f) = false ->
  exists resolved message,
    submit values w = Page.setFormErrors resolved w
    /\ Page.cvFile_message resolved = Some message
    /\ Page.network (snd (submit values w)) = Page.network w.
Proof.
  intros Attached Bad.
  pose proof (zodResolver_with_file values f rest Attached) as Resolved.
  assert (Message :
            exists message,
              (if negb (Nat.eqb (List.length (f :: rest)) 1)
               then Some "CV file is required."
               else if negb (N.leb (Page.size f) Page.MAX_SIZE)
               then Some "CV file size must be less than 5MB."
               else if negb (Page.allowed_type (Page.type f))
               then Some "CV must be a PDF, DOCX, DOC, or TXT file."
               else None) = Some message).
  { destruct (Nat.eqb (List.length (f :: rest)) 1) eqn:One; cbn [negb];
      [ | eauto].
    destruct (N.leb (Page.size f) Page.MAX_SIZE) eqn:Small; cbn [negb];
      [ | eauto].
    destruct (Page.allowed_type (Page.type f)) eqn:Allowed; cbn [negb];
      [ | eauto].
    exfalso. destruct Bad as [Many | [Large | Other]].
    - destruct rest; [contradiction | discriminate One].
    - apply N.leb_le in Small. lia.
    - discriminate Other. }
  destruct Message as (message & Message). rewrite Message in Resolved.
  assert (Errors :
            Page.isEmptyObject
              {| Page.jobDescription_message :=
                   if Nat.ltb (String.length (Page.jobDescription values)) 50
                   then Some "Job description must be at least 50 characters."
                   else None;
                 Page.cvFile_message := Some message |} = false).
  { unfold Page.isEmptyObject.
    cbn [Page.jobDescription_message Page.cvFile_message].
    now destruct (Nat.ltb (String.length (Page.jobDescription values)) 50). }
  eexists. exists message. split; [ | split].
  - apply submit_blocked; [exact Resolved | exact Errors].
  - reflexivity.
  - erewrite submit_blocked; [reflexivity | exact Resolved | exact Errors].
Qed.

(** C7. A description shorter than 50 characters, submitted with no file
    chosen: the resolver throws, the submission is rejected with a
    TypeError and the page is left as it was, without the length message
    (and without any request). *)
Theorem short_description_without_file_shows_no_message (w : Page.World) :
  (String.length (Page.jobDescription Fixtures.short_without_file) < 50)%nat
  /\ submit Fixtures.short_without_file w
     = (Throw (Page.TypeError_undefined "size"), w).
Proof.
  split; [cbn; lia | reflexivity].
Qed.

(** C8. No file attached, whatever the description: the resolver throws
    on [files[0].size], the submission is rejected with a TypeError and
    the page is left as it was, without the required-file message (and
    without any request). *)
Theorem submission_without_file_shows_no_message (description : string)
        (w : Page.World) :
  submit {| Page.jobDescription := description; Page.cvFile := Some [] |} w
  = (Throw (Page.TypeError_undefined "size"), w).
Proof. reflexivity. Qed.

End Submission.

Lemma no_partial_success_witness :
  exists message,
    Page.render
      (Page.ui
         (snd (Page.submit
                 (Fixtures.failing (JsError "model overloaded"))
                 Fixtures.job_flow
                 (Fixtures.reads "data:text/plain;base64,T0NhbWw=")
                 (Fixtures.reads "OCaml") [2; 0; 1]%nat
                 (Fixtures.with_file Fixtures.txt_file)
                 (Page.start Page.initial))))
    = error_view message.
Proof.
  apply (no_partial_success
           (Fixtures.failing (JsError "model overloaded"))
           Fixtures.job_flow
           (Fixtures.reads "data:text/plain;base64,T0NhbWw=")
           (Fixtures.reads "OCaml") [2; 0; 1]%nat
           (Fixtures.with_file Fixtures.txt_file)
           (Page.start Page.initial)
           {| AnalyzeCv.cvDataUri := "data:text/plain;base64,T0NhbWw=" |}
           {| AnalyzeJobDescription.jobDescription :=
                Fixtures.long_description |}
           {| MatchCvToJob.jobDescription := Fixtures.long_description;
              MatchCvToJob.cvContent := "OCaml" |});
    reflexivity.
Defined.

(** The run of the witness: the job analysis succeeded, and is not shown;
    the message is the one of the match action, which settled first. *)
Example two_of_three_rejected :
  let after :=
    snd (Page.submit
           (Fixtures.failing (JsError "model overloaded"))
           Fixtures.job_flow
           (Fixtures.reads "data:text/plain;base64,T0NhbWw=")
           (Fixtures.reads "OCaml") [2; 0; 1]%nat
           (Fixtures.with_file Fixtures.txt_file)
           (Page.start Page.initial)) in
  Page.ui after
  = {| Page.isLoading := false;
       Page.error := Some "Failed to match CV to job: model overloaded";
       Page.cvAnalysis := None; Page.jobAnalysis := None;
       Page.matchResult := None; Page.fileName := None;
       Page.errors := Page.no_errors |}
  /\ List.length (Page.network after) = 3%nat.
Proof. vm_compute. auto. Qed.

(** A run in which all three return: the three panels are filled. *)
Example all_three_returned :
  let after :=
    snd (Page.submit
           (Fixtures.answering (Fixtures.match_answer 82 "green"))
           Fixtures.job_flow
           (Fixtures.reads "data:text/plain;base64,T0NhbWw=")
           (Fixtures.reads "OCaml") []
           (Fixtures.with_file Fixtures.txt_file)
           (Page.start Page.initial)) in
  Page.error (Page.ui after) = None
  /\ Page.isLoading (Page.ui after) = false
  /\ Page.cv_panel (Page.render (Page.ui after)) <> None
  /\ Page.job_panel (Page.render (Page.ui after)) <> None
  /\ option_map Page.innerHTML (Page.match_panel (Page.render (Page.ui after)))
     = Some "<mark>Ten years</mark><br />of OCaml.".
Proof. vm_compute. repeat split; discriminate. Qed.

(** Only the job analysis is rejected: the CV analysis and the match
    returned, and neither is shown. *)
Example only_the_job_analysis_rejected :
  let after :=
    snd (Page.submit
           (Fixtures.answering (Fixtures.match_answer 82 "green"))
           (Fixtures.failing_job_flow (JsOther None))
           (Fixtures.reads "data:text/plain;base64,T0NhbWw=")
           (Fixtures.reads "OCaml") []
           (Fixtures.with_file Fixtures.txt_file)
           (Page.start Page.initial)) in
  Page.render (Page.ui after)
  = error_view "Failed to analyze job description due to an unknown error."
  /\ List.length (Page.network after) = 3%nat.
Proof. vm_compute. auto. Qed.

(** The same with a valid description: the page stays as it was. *)
Example valid_description_without_file :
  Page.submit
    (Fixtures.answering (Fixtures.match_answer 82 "green"))
    Fixtures.job_flow
    (Fixtures.reads "data:text/plain;base64,T0NhbWw=")
    (Fixtures.reads "OCaml") []
    Fixtures.long_without_file (Page.start Page.initial)
  = (Throw (JsError "Cannot read properties of undefined (reading 'size')"),
     Page.start Page.initial)
  /\ (50 <= String.length Fixtures.long_description)%nat.
Proof. vm_compute. split; [reflexivity | lia]. Qed.

(** C4, as stated, fails: for a text/plain file the failed decode is not
    caught on the spot; it ends the submission before any request. *)
Lemma unreadable_text_file_fails_the_submission :
  let after :=
    snd (Page.submit
           (Fixtures.answering (Fixtures.match_answer 82 "green"))
           Fixtures.job_flow
           (Fixtures.reads "data:text/plain;base64,T0NhbWw=")
           Fixtures.read_fails []
           (Fixtures.with_file Fixtures.txt_file)
           (Page.start Page.initial)) in
  Page.readFileAsText Fixtures.read_fails Fixtures.txt_file
  = Throw ProgressEvent
  /\ Page.network after = []
  /\ ~ In (Page.POST_matchCvToJobAction
             {| MatchCvToJob.jobDescription := Fixtures.long_description;
                MatchCvToJob.cvContent := Page.fallback_text |})
          (Page.network after)
  /\ Page.error (Page.ui after) = Some Page.unexpected_error.
Proof.
  vm_compute. repeat split; auto.
Qed.

Lemma unreadable_binary_file_falls_back_witness :
  let after :=
    snd (Page.onSubmitHandler
           (Fixtures.answering (Fixtures.match_answer 82 "green"))
           Fixtures.job_flow
           (Fixtures.reads "data:application/pdf;base64,JVBERg==")
           Fixtures.read_fails []
           (Fixtures.with_file Fixtures.pdf_file)
           (Page.start Page.initial)) in
  Page.network after
  = three_requests
      {| AnalyzeCv.cvDataUri := "data:application/pdf;base64,JVBERg==" |}
      {| AnalyzeJobDescription.jobDescription := Fixtures.long_description |}
      {| MatchCvToJob.jobDescription := Fixtures.long_description;
         MatchCvToJob.cvContent := Page.fallback_text |}
  /\ exists later,
      Page.browser_console after
      = console_warn "Could not read file as text:" ProgressEvent :: later.
Proof.
  apply (unreadable_binary_file_falls_back
           (Fixtures.answering (Fixtures.match_answer 82 "green"))
           Fixtures.job_flow
           (Fixtures.reads "data:application/pdf;base64,JVBERg==")
           Fixtures.read_fails []
           (Fixtures.with_file Fixtures.pdf_file)
           (Page.start Page.initial) Fixtures.pdf_file []
           "data:application/pdf;base64,JVBERg==");
    reflexivity.
Defined.

(* ================================================================== *)
(** ** The page: resetting *)

Lemma handleReset_run (w : Page.World) :
  Page.handleReset w
  = (Ret tt,
     {| Page.ui := Page.initial;
        Page.browser_console := Page.browser_console w;
        Page.server_console := Page.server_console w;
        Page.network := Page.network w |}).
Proof. reflexivity. Qed.

(** C9. Whatever a submission left behind, successful, failed or
    blocked, resetting returns the page state to the initial one: the
    three results, the error message, the file name and the loading flag
    are cleared. *)
Theorem reset_after_submit (model : Model)
        (analyzeJobDescription : AnalyzeJobDescription.Flow)
        (readAsDataURL readAsText : Page.File -> option string)
        (schedule : list nat) (values : Page.FormValues) (w : Page.World) :
  let submitted :=
    snd (Page.submit model analyzeJobDescription readAsDataURL readAsText
                     schedule values w) in
  fst (Page.handleReset submitted) = Ret tt
  /\ Page.ui (snd (Page.handleReset submitted)) = Page.initial
  /\ Page.network (snd (Page.handleReset submitted)) = Page.network submitted.
Proof.
  intros submitted. now rewrite handleReset_run.
Qed.

(* ================================================================== *)
(** ** More on the schemas *)

Lemma parse_items_strings (xs : list json) (ss : list string) :
  Zod.parse_items Zod.z_string xs = Some ss <-> xs = map JStr ss.
Proof.
  revert ss. induction xs as [ | x rest IH]; intros ss; simpl.
  - split.
    + now intros [= <-].
    + destruct ss; [reflexivity | discriminate].
  - split.
    + destruct x as [ | | | s | | ]; simpl; try discriminate.
      destruct (Zod.parse_items Zod.z_string rest) as [vs | ] eqn:Rest;
        [ | discriminate].
      intros [= <-]. simpl. f_equal. now apply IH.
    + destruct ss as [ | s ss']; [discriminate | ].
      intros [= -> Tail]. simpl.
      apply IH in Tail. now rewrite Tail.
Qed.

Lemma cv_schema_fields (raw : json) (r : AnalyzeCv.Output) :
  AnalyzeCv.OutputSchema raw = Some r ->
  exists fs,
    raw = JObj fs
    /\ Zod.assoc "skills" fs = Some (JArr (map JStr (AnalyzeCv.skills r)))
    /\ Zod.assoc "experience" fs = Some (JStr (AnalyzeCv.experience r))
    /\ Zod.assoc "qualifications" fs
       = Some (JStr (AnalyzeCv.qualifications r)).
Proof.
  unfold AnalyzeCv.OutputSchema, Zod.field, Zod.z_array, Zod.z_string.
  intros Parsed.
  destruct raw as [ | | | | | fs]; try discriminate.
  destruct (Zod.assoc "skills" fs) as [[ | | | | xs | ] | ] eqn:Skills;
    cbv beta iota in Parsed; try discriminate.
  destruct (Zod.parse_items _ xs) as [ss | ] eqn:Items;
    cbv beta iota in Parsed; try discriminate.
  destruct (Zod.assoc "experience" fs) as [[ | | | e | | ] | ] eqn:Exp;
    cbv beta iota in Parsed; try discriminate.
  destruct (Zod.assoc "qualifications" fs) as [[ | | | q | | ] | ] eqn:Qual;
    cbv beta iota in Parsed; try discriminate.
  injection Parsed as <-. exists fs.
  cbn [AnalyzeCv.skills AnalyzeCv.experience AnalyzeCv.qualifications].
  apply parse_items_strings in Items. subst xs. auto.
Qed.

Lemma cv_schema_accepts (fs : list (string * json)) (r : AnalyzeCv.Output) :
  Zod.assoc "skills" fs = Some (JArr (map JStr (AnalyzeCv.skills r))) ->
  Zod.assoc "experience" fs = Some (JStr (AnalyzeCv.experience r)) ->
  Zod.assoc "qualifications" fs = Some (JStr (AnalyzeCv.qualifications r)) ->
  AnalyzeCv.OutputSchema (JObj fs) = Some r.
Proof.
  intros Skills Exp Qual.
  unfold AnalyzeCv.OutputSchema, Zod.field, Zod.z_array.
  rewrite Skills, Exp, Qual.
  assert (Items : Zod.parse_items Zod.z_string (map JStr (AnalyzeCv.skills r))
                  = Some (AnalyzeCv.skills r))
    by now apply parse_items_strings.
  rewrite Items. unfold Zod.z_string. now destruct r.
Qed.

(** X1. The CV-analysis schema accepts exactly the objects whose skills
    key holds an array of strings and whose experience and qualifications
    keys hold strings; it returns those values in order, whatever other
    keys the object has. *)
Theorem cv_schema_accepts_exactly (raw : json) (r : AnalyzeCv.Output) :
  AnalyzeCv.OutputSchema raw = Some r
  <-> exists fs,
      raw = JObj fs
      /\ Zod.assoc "skills" fs = Some (JArr (map JStr (AnalyzeCv.skills r)))
      /\ Zod.assoc "experience" fs = Some (JStr (AnalyzeCv.experience r))
      /\ Zod.assoc "qualifications" fs
         = Some (JStr (AnalyzeCv.qualifications r)).
Proof.
  split.
  - apply cv_schema_fields.
  - intros (fs & -> & Skills & Exp & Qual). now apply cv_schema_accepts.
Qed.

Lemma color_literal (label : string) (c : ColorCode) :
  In (label, c) MatchCvToJob.colorCodes ->
  Zod.assoc label MatchCvToJob.colorCodes = Some c.
Proof.
  unfold MatchCvToJob.colorCodes.
  intros [[= <- <-] | [[= <- <-] | [[= <- <-] | []]]]; reflexivity.
Qed.

(** X2. The match schema accepts exactly the objects whose matchScore
    key holds a number, whose highlightedCv key holds a string and whose
    colorCode key holds one of the three literals; the number and the
    string are returned as they are. *)
Theorem match_schema_accepts_exactly (raw : json) (r : MatchCvToJob.Output) :
  MatchCvToJob.OutputSchema raw = Some r
  <-> exists fs label,
      raw = JObj fs
      /\ Zod.assoc "matchScore" fs = Some (JNum (MatchCvToJob.matchScore r))
      /\ Zod.assoc "highlightedCv" fs
         = Some (JStr (MatchCvToJob.highlightedCv r))
      /\ Zod.assoc "colorCode" fs = Some (JStr label)
      /\ In (label, MatchCvToJob.colorCode r) MatchCvToJob.colorCodes.
Proof.
  split.
  - intros Parsed.
    apply match_schema_fields in Parsed
      as (fs & label & -> & Score & Text & Color & Label).
    exists fs, label. repeat split; auto. now apply assoc_In.
  - intros (fs & label & -> & Score & Text & Color & Label).
    apply color_literal in Label.
    unfold MatchCvToJob.OutputSchema, Zod.field, Zod.z_enum.
    rewrite Score, Text, Color. unfold Zod.z_number, Zod.z_string.
    rewrite Label. now destruct r.
Qed.



(* ================================================================== *)
(** ** More on the actions *)

(** X4. Each action returns a response exactly when its underlying
    operation returns it, and then the server's console is left as it
    was: the response is passed on unchanged and nothing is logged. *)
Theorem actions_return_the_response_unchanged
        (model : Model) (analyzeJobDescription : AnalyzeJobDescription.Flow)
        (cv : AnalyzeCv.Input) (job : AnalyzeJobDescription.Input)
        (m : MatchCvToJob.Input) (c c' : Console)
        (cv_response : AnalyzeCv.Output)
        (job_response : AnalyzeJobDescription.Output)
        (match_response : MatchCvToJob.Output) :
  (Actions.analyzeCvAction model cv c = (Ret cv_response, c')
   <-> AnalyzeCv.analyzeCv model cv = Ret cv_response /\ c' = c)
  /\ (Actions.analyzeJobDescriptionAction analyzeJobDescription job c
      = (Ret job_response, c')
      <-> analyzeJobDescription job = Ret job_response /\ c' = c)
  /\ (Actions.matchCvToJobAction model m c = (Ret match_response, c')
      <-> MatchCvToJob.matchCvToJob model m = Ret match_response /\ c' = c).
Proof.
  unfold Actions.analyzeCvAction, Actions.analyzeJobDescriptionAction,
    Actions.matchCvToJobAction, try_catch, bind, await, ret, throw,
    Actions.log.
  split; [ | split]; (split; [intros Run | intros [Run ->]]).
  - destruct (AnalyzeCv.analyzeCv model cv) as [r | e]; cbn in Run.
    + injection Run as -> ->. auto.
    + destruct (instanceof_Error e); discriminate.
  - now rewrite Run.
  - destruct (analyzeJobDescription job) as [r | e]; cbn in Run.
    + injection Run as -> ->. auto.
    + destruct (instanceof_Error e); discriminate.
  - now rewrite Run.
  - destruct (MatchCvToJob.matchCvToJob model m) as [r | e]; cbn in Run.
    + injection Run as -> ->. auto.
    + destruct (instanceof_Error e); discriminate.
  - now rewrite Run.
Qed.

(** The rejection of an action is always a new [Error] whose message
    starts with "Failed to " and the name of the operation. *)
Lemma action_rejection_shape (model : Model)
      (analyzeJobDescription : AnalyzeJobDescription.Flow)
      (op : operation) (c : Console) (e : thrown) :
  fst (action_rejection model analyzeJobDescription op c) = Some e ->
  exists original,
    underlying_rejection model analyzeJobDescription op = Some original
    /\ e = JsError (message_by_instance op original).
Proof.
  destruct op as [i | i | i]; simpl;
    unfold Actions.analyzeCvAction, Actions.analyzeJobDescriptionAction,
      Actions.matchCvToJobAction, try_catch, bind, await, ret, throw,
      Actions.log, message_by_instance.
  - destruct (AnalyzeCv.analyzeCv model i) as [r | e0]; simpl;
      [discriminate | ].
    destruct e0; cbn; intros [= <-]; eexists; split; reflexivity.
  - destruct (analyzeJobDescription i) as [r | e0]; simpl;
      [discriminate | ].
    destruct e0; cbn; intros [= <-]; eexists; split; reflexivity.
  - destruct (MatchCvToJob.matchCvToJob model i) as [r | e0]; simpl;
      [discriminate | ].
    destruct e0; cbn; intros [= <-]; eexists; split; reflexivity.
Qed.

(** X5. Whatever the underlying operation throws, an action only ever
    rejects with an [Error] whose message starts with "Failed to "
    followed by the name of its operation: the thrown value itself never
    reaches the caller. *)
Theorem actions_reject_with_their_own_error (model : Model)
        (analyzeJobDescription : AnalyzeJobDescription.Flow)
        (op : operation) (c : Console) (e : thrown) :
  fst (action_rejection model analyzeJobDescription op c) = Some e ->
  exists detail,
    e = JsError ("Failed to " ++ operation_name op ++ detail)
    /\ detail <> "".
Proof.
  intros Rejected.
  apply action_rejection_shape in Rejected as (original & _ & ->).
  unfold message_by_instance.
  destruct (instanceof_Error original).
  - exists (": " ++ Actions.interpolate (message_of original))%string.
    split; [reflexivity | discriminate].
  - exists " due to an unknown error."%string.
    split; [reflexivity | discriminate].
Qed.

Lemma actions_reject_with_their_own_error_witness :
  exists detail,
    JsError "Failed to analyze CV due to an unknown error."
    = JsError ("Failed to " ++ "analyze CV" ++ detail)
    /\ detail <> "".
Proof.
  apply (actions_reject_with_their_own_error
           (Fixtures.failing (JsOther (Some "quota exceeded")))
           Fixtures.job_flow (op_analyzeCv Fixtures.cv_input) []).
  reflexivity.
Defined.

(** The CV action returns exactly what its flow returns. *)
Lemma analyzeCvAction_returned (model : Model) (input : AnalyzeCv.Input)
      (c c' : Console) (r : AnalyzeCv.Output) :
  Actions.analyzeCvAction model input c = (Ret r, c') ->
  AnalyzeCv.analyzeCv model input = Ret r.
Proof.
  unfold Actions.analyzeCvAction, try_catch, bind, await, ret, throw.
  destruct (AnalyzeCv.analyzeCv model input) as [r0 | e]; simpl.
  - now intros [= ->].
  - unfold Actions.log. destruct (instanceof_Error e); discriminate.
Qed.

(** X6. A successful CV-analysis response is the backend's answer: the
    skills are the strings of the answer's array, in order, and the two
    summaries are the answer's strings. *)
Theorem cv_response_is_the_backend_answer (model : Model)
        (input : AnalyzeCv.Input) (c c' : Console) (r : AnalyzeCv.Output) :
  Actions.analyzeCvAction model input c = (Ret r, c') ->
  exists fs,
    model (AnalyzeCv.template input) = Ret (Some (JObj fs))
    /\ Zod.assoc "skills" fs = Some (JArr (map JStr (AnalyzeCv.skills r)))
    /\ Zod.assoc "experience" fs = Some (JStr (AnalyzeCv.experience r))
    /\ Zod.assoc "qualifications" fs
       = Some (JStr (AnalyzeCv.qualifications r)).
Proof.
  intros Run. apply analyzeCvAction_returned in Run.
  assert (Flow : conforms_or_fails AnalyzeCv.OutputSchema
                   (model (AnalyzeCv.template input)) (Ret r)).
  { rewrite <- Run.
    now apply (flow_conforms_or_fails model AnalyzeCv.OutputSchema). }
  apply conforms_or_fails_returned in Flow as (raw & Answer & Parsed).
  apply cv_schema_fields in Parsed as (fs & -> & Fields).
  exists fs. auto.
Qed.

Lemma cv_response_is_the_backend_answer_witness :
  exists fs,
    Fixtures.answering (Fixtures.match_answer 82 "green")
                       (AnalyzeCv.template Fixtures.cv_input)
    = Ret (Some (JObj fs))
    /\ Zod.assoc "skills" fs = Some (JArr (map JStr ["OCaml"]))
    /\ Zod.assoc "experience" fs = Some (JStr "Ten years.")
    /\ Zod.assoc "qualifications" fs = Some (JStr "MSc").
Proof.
  apply (cv_response_is_the_backend_answer
           (Fixtures.answering (Fixtures.match_answer 82 "green"))
           Fixtures.cv_input [] []
           {| AnalyzeCv.skills := ["OCaml"];
              AnalyzeCv.experience := "Ten years.";
              AnalyzeCv.qualifications := "MSc" |}).
  reflexivity.
Defined.

(* ================================================================== *)
(** ** More on the submit handler *)

Lemma first_rejection_among (schedule : list nat)
      (reasons : list (option thrown)) (otherwise : thrown) :
  In (Some otherwise) reasons ->
  In (Some (Page.first_rejection schedule reasons otherwise)) reasons.
Proof.
  intros Given. induction schedule as [ | i rest IH]; [exact Given | ].
  change (Page.first_rejection (i :: rest) reasons otherwise)
    with (match nth i reasons None with
          | Some e => e
          | None => Page.first_rejection rest reasons otherwise
          end).
  destruct (nth i reasons None) as [e | ] eqn:At; [ | exact IH].
  rewrite <- At. destruct (Nat.lt_ge_cases i (List.length reasons)) as [In_ | Out].
  - now apply nth_In.
  - rewrite nth_overflow in At by exact Out. discriminate.
Qed.

Section Handler.
Variable model : Model.
Variable analyzeJobDescription : AnalyzeJobDescription.Flow.
Variable readAsDataURL : Page.File -> option string.
Variable readAsText : Page.File -> option string.
Variable schedule : list nat.

#[local] Abbreviation onSubmitHandler :=
  (Page.onSubmitHandler model analyzeJobDescription readAsDataURL readAsText
                        schedule).
#[local] Abbreviation submit :=
  (Page.submit model analyzeJobDescription readAsDataURL readAsText schedule).

(** Where the handler leaves the page: all three results and no error,
    or an error and no result. *)
Lemma onSubmitHandler_shape (data : Page.FormValues) (w : Page.World) :
  exists w',
    onSubmitHandler data w = (Ret tt, w')
    /\ Page.isLoading (Page.ui w') = false
    /\ Page.fileName (Page.ui w') = Page.fileName (Page.ui w)
    /\ Page.errors (Page.ui w') = Page.errors (Page.ui w)
    /\ ((Page.error (Page.ui w') = None
         /\ exists a b c,
             Page.cvAnalysis (Page.ui w') = Some a
             /\ Page.jobAnalysis (Page.ui w') = Some b
             /\ Page.matchResult (Page.ui w') = Some c)
        \/ (exists e,
               Page.error (Page.ui w')
               = Some (Page.or_default (message_of e) Page.unexpected_error)
               /\ Page.cvAnalysis (Page.ui w') = None
               /\ Page.jobAnalysis (Page.ui w') = None
               /\ Page.matchResult (Page.ui w') = None)).
Proof.
  run_handler.
  destruct (Page.cvFile_0 data) as [f | e]; cbn;
    [ | now eexists; repeat split; right; exists e].
  destruct (readAsDataURL f) as [uri | ]; cbn;
    [ | now eexists; repeat split; right; exists ProgressEvent].
  destruct (String.eqb (Page.type f) "text/plain"); cbn;
    destruct (readAsText f) as [txt | ]; cbn.
  2: now eexists; repeat split; right; exists ProgressEvent.
  all: run_actions.
  all: destruct (outcome_of (Actions.analyzeCvAction model _)) as [a | ea];
       destruct (outcome_of (Actions.analyzeJobDescriptionAction _ _))
         as [b | eb];
       destruct (outcome_of (Actions.matchCvToJobAction model _))
         as [c | ec];
       cbn; eexists; repeat split;
       solve [ left; split; [reflexivity | now exists a, b, c]
             | right; eexists; repeat split; reflexivity ].
Qed.

(** X7. The submit handler never rejects: whatever fails on the way (the
    file reads, any of the three actions), it resolves with the loading
    flag off, and it touches neither the displayed file name nor the
    form's field errors. *)
Theorem handler_always_settles (data : Page.FormValues) (w : Page.World) :
  fst (onSubmitHandler data w) = Ret tt
  /\ Page.isLoading (Page.ui (snd (onSubmitHandler data w))) = false
  /\ Page.fileName (Page.ui (snd (onSubmitHandler data w)))
     = Page.fileName (Page.ui w)
  /\ Page.errors (Page.ui (snd (onSubmitHandler data w)))
     = Page.errors (Page.ui w).
Proof.
  destruct (onSubmitHandler_shape data w)
    as (w' & -> & Loading & Name & Errors & _).
  auto.
Qed.

(** X8. The handler sends all three requests or none: none when the file
    or its data URL cannot be read (or a text/plain file cannot be
    decoded), otherwise the CV analysis with the data URL, then the job
    analysis and the match, both with the submitted job description. *)
Theorem requests_all_or_none (data : Page.FormValues) (w : Page.World) :
  Page.network (snd (onSubmitHandler data w)) = Page.network w
  \/ exists f uri txt,
      Page.cvFile_0 data = Ret f
      /\ readAsDataURL f = Some uri
      /\ Page.network (snd (onSubmitHandler data w))
         = Page.network w
           ++ three_requests
                {| AnalyzeCv.cvDataUri := uri |}
                {| AnalyzeJobDescription.jobDescription :=
                     Page.jobDescription data |}
                {| MatchCvToJob.jobDescription := Page.jobDescription data;
                   MatchCvToJob.cvContent := txt |}.
Proof.
  unfold three_requests. run_handler.
  destruct (Page.cvFile_0 data) as [f | e]; cbn; [ | now left].
  destruct (readAsDataURL f) as [uri | ] eqn:Url; cbn; [ | now left].
  destruct (String.eqb (Page.type f) "text/plain"); cbn;
    (destruct (readAsText f) as [txt | ]; cbn; [ | try (now left)]);
    run_actions.
  all: right; exists f, uri; eexists; repeat split; try exact Url.
  all: destruct (outcome_of (Actions.analyzeCvAction model _));
       destruct (outcome_of (Actions.analyzeJobDescriptionAction _ _));
       destruct (outcome_of (Actions.matchCvToJobAction model _));
       cbn; rewrite <- ?app_assoc; reflexivity.
Qed.

(** X9. Whatever the type of the file, text/plain or not, when it can be
    decoded the three requests go out and the match request carries the
    decoded text as it is. *)
Theorem decoded_text_is_sent_as_it_is (data : Page.FormValues)
        (w : Page.World) (f : Page.File) (rest : Page.FileList)
        (uri txt : string) :
  Page.cvFile data = Some (f :: rest) ->
  readAsDataURL f = Some uri ->
  readAsText f = Some txt ->
  Page.network (snd (onSubmitHandler data w))
  = Page.network w
    ++ three_requests
         {| AnalyzeCv.cvDataUri := uri |}
         {| AnalyzeJobDescription.jobDescription := Page.jobDescription data |}
         {| MatchCvToJob.jobDescription := Page.jobDescription data;
            MatchCvToJob.cvContent := txt |}.
Proof.
  intros Attached Url Text.
  unfold three_requests. run_handler.
  unfold Page.cvFile_0. rewrite Attached. cbn.
  rewrite Url. cbn.
  destruct (String.eqb (Page.type f) "text/plain"); cbn;
    rewrite Text; cbn; run_actions.
  all: destruct (outcome_of (Actions.analyzeCvAction model _));
       destruct (outcome_of (Actions.analyzeJobDescriptionAction _ _));
       destruct (outcome_of (Actions.matchCvToJobAction model _));
       cbn; rewrite <- ?app_assoc; reflexivity.
Qed.

(** X10. When the data URL of the file cannot be read, nothing is sent:
    the failure is logged, no result is stored and, the reader's event
    having no message, the page shows the default message. *)
Theorem unreadable_file_stops_the_submission (data : Page.FormValues)
        (w : Page.World) (f : Page.File) (rest : Page.FileList) :
  Page.cvFile data = Some (f :: rest) ->
  readAsDataURL f = None ->
  Page.network (snd (onSubmitHandler data w)) = Page.network w
  /\ Page.browser_console (snd (onSubmitHandler data w))
     = Page.browser_console w
       ++ [console_error "Processing error:" ProgressEvent]
  /\ Page.render (Page.ui (snd (onSubmitHandler data w)))
     = error_view Page.unexpected_error.
Proof.
  intros Attached Url.
  run_handler. unfold Page.cvFile_0. rewrite Attached. cbn.
  rewrite Url. cbn. repeat split.
Qed.

(** The handler, once the three requests are out and all three return. *)
Lemma onSubmitHandler_success (data : Page.FormValues) (w : Page.World)
      (cv : AnalyzeCv.Input) (job : AnalyzeJobDescription.Input)
      (m : MatchCvToJob.Input) (a : AnalyzeCv.Output)
      (b : AnalyzeJobDescription.Output) (c : MatchCvToJob.Output) :
  Page.network (snd (onSubmitHandler data w))
  = Page.network w ++ three_requests cv job m ->
  outcome_of (Actions.analyzeCvAction model cv) = Ret a ->
  outcome_of (Actions.analyzeJobDescriptionAction analyzeJobDescription job)
  = Ret b ->
  outcome_of (Actions.matchCvToJobAction model m) = Ret c ->
  Page.ui (snd (onSubmitHandler data w))
  = {| Page.isLoading := false; Page.error := None;
       Page.cvAnalysis := Some a; Page.jobAnalysis := Some b;
       Page.matchResult := Some c;
       Page.fileName := Page.fileName (Page.ui w);
       Page.errors := Page.errors (Page.ui w) |}.
Proof.
  unfold three_requests. run_handler.
  destruct (Page.cvFile_0 data) as [f | e]; cbn;
    [ | intros Sent; no_request Sent].
  destruct (readAsDataURL f) as [uri | ]; cbn;
    [ | intros Sent; no_request Sent].
  destruct (String.eqb (Page.type f) "text/plain"); cbn;
    (destruct (readAsText f) as [txt | ]; cbn;
     [ | try (intros Sent; no_request Sent)]);
    run_actions.
  all: destruct (outcome_of (Actions.analyzeCvAction model _))
         as [a' | ea] eqn:Cv;
       destruct (outcome_of (Actions.analyzeJobDescriptionAction _ _))
         as [b' | eb] eqn:Job;
       destruct (outcome_of (Actions.matchCvToJobAction model _))
         as [c' | ec] eqn:Match;
       cbn; intros Sent; rewrite <- !app_assoc in Sent;
       apply app_inv_head in Sent; cbn in Sent;
       injection Sent as <- <- <-; rewrite Cv, Job, Match;
       intros [= <-] [= <-] [= <-]; reflexivity.
Qed.

(** X11. In a submission whose three requests went out and all returned,
    the page ends with the three responses stored as they came, no error
    and the loading flag off: it shows the three panels, neither the
    banner nor the placeholder. *)
Theorem all_returned_fills_the_panels (values : Page.FormValues)
        (w : Page.World) (cv : AnalyzeCv.Input)
        (job : AnalyzeJobDescription.Input) (m : MatchCvToJob.Input)
        (a : AnalyzeCv.Output) (b : AnalyzeJobDescription.Output)
        (c : MatchCvToJob.Output) :
  Page.network (snd (submit values w))
  = Page.network w ++ three_requests cv job m ->
  outcome_of (Actions.analyzeCvAction model cv) = Ret a ->
  outcome_of (Actions.analyzeJobDescriptionAction analyzeJobDescription job)
  = Ret b ->
  outcome_of (Actions.matchCvToJobAction model m) = Ret c ->
  Page.render (Page.ui (snd (submit values w)))
  = {| Page.spinner := false; Page.alert := None;
       Page.match_panel := Some (Page.match_card c);
       Page.cv_panel := Some a; Page.job_panel := Some b;
       Page.placeholder := false |}.
Proof.
  unfold Page.submit, Page.handleSubmit, bind, await.
  destruct (Page.zodResolver Page.formSchema values) as [resolved | e];
    [ | intros Sent; no_request Sent].
  unfold Page.setFormErrors, Page.setState at 1.
  destruct (Page.isEmptyObject resolved).
  - intros Sent Cv Job Match.
    pose proof (onSubmitHandler_success values _ cv job m a b c
                  Sent Cv Job Match) as Final.
    exact (f_equal Page.render Final).
  - intros Sent. no_request Sent.
Qed.

(** The handler shows the message of one of the rejected actions. *)
Lemma onSubmitHandler_message (data : Page.FormValues) (w : Page.World)
      (cv : AnalyzeCv.Input) (job : AnalyzeJobDescription.Input)
      (m : MatchCvToJob.Input) :
  Page.network (snd (onSubmitHandler data w))
  = Page.network w ++ three_requests cv job m ->
  is_rejected (outcome_of (Actions.analyzeCvAction model cv))
  || is_rejected
       (outcome_of
          (Actions.analyzeJobDescriptionAction analyzeJobDescription job))
  || is_rejected (outcome_of (Actions.matchCvToJobAction model m)) = true ->
  exists e,
    In (Some e)
       [ Page.reason (outcome_of (Actions.analyzeCvAction model cv));
         Page.reason
           (outcome_of
              (Actions.analyzeJobDescriptionAction analyzeJobDescription job));
         Page.reason (outcome_of (Actions.matchCvToJobAction model m)) ]
    /\ Page.error (Page.ui (snd (onSubmitHandler data w)))
       = Some (Page.or_default (message_of e) Page.unexpected_error).
Proof.
  unfold three_requests. run_handler.
  destruct (Page.cvFile_0 data) as [f | e]; cbn;
    [ | intros Sent; no_request Sent].
  destruct (readAsDataURL f) as [uri | ]; cbn;
    [ | intros Sent; no_request Sent].
  destruct (String.eqb (Page.type f) "text/plain"); cbn;
    (destruct (readAsText f) as [txt | ]; cbn;
     [ | try (intros Sent; no_request Sent)]);
    run_actions.
  all: destruct (outcome_of (Actions.analyzeCvAction model _))
         as [a | ea] eqn:Cv;
       destruct (outcome_of (Actions.analyzeJobDescriptionAction _ _))
         as [b | eb] eqn:Job;
       destruct (outcome_of (Actions.matchCvToJobAction model _))
         as [c | ec] eqn:Match;
       cbn; intros Sent; rewrite <- !app_assoc in Sent;
       apply app_inv_head in Sent; cbn in Sent;
       injection Sent as <- <- <-; rewrite Cv, Job, Match; cbn;
       intros Rejected; try discriminate Rejected;
       eexists; (split; [ | reflexivity]);
       match goal with
       | |- context [Page.first_rejection ?s ?l ?o] =>
           pose proof (first_rejection_among s l o) as Among;
           cbn in Among; apply Among; auto 6
       end.
Qed.

End Handler.

Lemma rejection_reasons_are_errors (model : Model)
      (analyzeJobDescription : AnalyzeJobDescription.Flow)
      (cv : AnalyzeCv.Input) (job : AnalyzeJobDescription.Input)
      (m : MatchCvToJob.Input) (e : thrown) :
  In (Some e)
     [ Page.reason (outcome_of (Actions.analyzeCvAction model cv));
       Page.reason
         (outcome_of
            (Actions.analyzeJobDescriptionAction analyzeJobDescription job));
       Page.reason (outcome_of (Actions.matchCvToJobAction model m)) ] ->
  exists message,
    e = JsError message
    /\ Page.or_default (Some message) Page.unexpected_error = message.
Proof.
  unfold outcome_of, Actions.analyzeCvAction,
    Actions.analyzeJobDescriptionAction, Actions.matchCvToJobAction,
    try_catch, bind, await, ret, throw, Actions.log.
  intros [Cv | [Job | [Match | []]]].
  - destruct (AnalyzeCv.analyzeCv model cv) as [r | e0]; cbn in Cv;
      [discriminate | ].
    destruct (instanceof_Error e0); cbn in Cv; injection Cv as <-;
      eexists; split; reflexivity.
  - destruct (analyzeJobDescription job) as [r | e0]; cbn in Job;
      [discriminate | ].
    destruct (instanceof_Error e0); cbn in Job; injection Job as <-;
      eexists; split; reflexivity.
  - destruct (MatchCvToJob.matchCvToJob model m) as [r | e0]; cbn in Match;
      [discriminate | ].
    destruct (instanceof_Error e0); cbn in Match; injection Match as <-;
      eexists; split; reflexivity.
Qed.

(** X12. In a submission whose three requests went out and of which at
    least one was rejected, the message the page stores is the message
    of one of the rejected actions, never the default one. *)
Theorem shown_message_is_a_rejection_message (model : Model)
        (analyzeJobDescription : AnalyzeJobDescription.Flow)
        (readAsDataURL readAsText : Page.File -> option string)
        (schedule : list nat) (values : Page.FormValues) (w : Page.World)
        (cv : AnalyzeCv.Input) (job : AnalyzeJobDescription.Input)
        (m : MatchCvToJob.Input) :
  let after :=
    snd (Page.submit model analyzeJobDescription readAsDataURL readAsText
                     schedule values w) in
  Page.network after = Page.network w ++ three_requests cv job m ->
  is_rejected (outcome_of (Actions.analyzeCvAction model cv))
  || is_rejected
       (outcome_of
          (Actions.analyzeJobDescriptionAction analyzeJobDescription job))
  || is_rejected (outcome_of (Actions.matchCvToJobAction model m)) = true ->
  exists message,
    Page.error (Page.ui after) = Some message
    /\ In (Some (JsError message))
          [ Page.reason (outcome_of (Actions.analyzeCvAction model cv));
            Page.reason
              (outcome_of
                 (Actions.analyzeJobDescriptionAction analyzeJobDescription
                                                      job));
            Page.reason (outcome_of (Actions.matchCvToJobAction model m)) ].
Proof.
  intros after. subst after.
  unfold Page.submit, Page.handleSubmit, bind, await.
  destruct (Page.zodResolver Page.formSchema values) as [resolved | e];
    [ | intros Sent; no_request Sent].
  unfold Page.setFormErrors, Page.setState at 1.
  destruct (Page.isEmptyObject resolved);
    [ | intros Sent; no_request Sent].
  intros Sent Rejected.
  destruct (onSubmitHandler_message model analyzeJobDescription readAsDataURL
              readAsText schedule values _ cv job m Sent Rejected)
    as (e & Among & Stored).
  destruct (rejection_reasons_are_errors _ _ _ _ _ _ Among)
    as (message & -> & Shown).
  exists message. split; [ | exact Among].
  cbn [message_of] in Stored. rewrite Shown in Stored. exact Stored.
Qed.

Lemma shown_message_is_a_rejection_message_witness :
  exists message,
    Page.error
      (Page.ui
         (snd (Page.submit
                 (Fixtures.failing (JsError "model overloaded"))
                 Fixtures.job_flow
                 (Fixtures.reads "data:text/plain;base64,T0NhbWw=")
                 (Fixtures.reads "OCaml") [2; 0; 1]%nat
                 (Fixtures.with_file Fixtures.txt_file)
                 (Page.start Page.initial))))
    = Some message
    /\ In (Some (JsError message))
          [ Some (JsError "Failed to analyze CV: model overloaded");
            None;
            Some (JsError "Failed to match CV to job: model overloaded") ].
Proof.
  apply (shown_message_is_a_rejection_message
           (Fixtures.failing (JsError "model overloaded"))
           Fixtures.job_flow
           (Fixtures.reads "data:text/plain;base64,T0NhbWw=")
           (Fixtures.reads "OCaml") [2; 0; 1]%nat
           (Fixtures.with_file Fixtures.txt_file)
           (Page.start Page.initial)
           {| AnalyzeCv.cvDataUri := "data:text/plain;base64,T0NhbWw=" |}
           {| AnalyzeJobDescription.jobDescription :=
                Fixtures.long_description |}
           {| MatchCvToJob.jobDescription := Fixtures.long_description;
              MatchCvToJob.cvContent := "OCaml" |});
    reflexivity.
Defined.

Lemma decoded_text_is_sent_as_it_is_witness :
  Page.network
    (snd (Page.onSubmitHandler
            (Fixtures.answering (Fixtures.match_answer 82 "green"))
            Fixtures.job_flow
            (Fixtures.reads "data:application/pdf;base64,JVBERg==")
            (Fixtures.reads "%PDF") []
            (Fixtures.with_file Fixtures.pdf_file)
            (Page.start Page.initial)))
  = three_requests
      {| AnalyzeCv.cvDataUri := "data:application/pdf;base64,JVBERg==" |}
      {| AnalyzeJobDescription.jobDescription := Fixtures.long_description |}
      {| MatchCvToJob.jobDescription := Fixtures.long_description;
         MatchCvToJob.cvContent := "%PDF" |}.
Proof.
  apply (decoded_text_is_sent_as_it_is
           (Fixtures.answering (Fixtures.match_answer 82 "green"))
           Fixtures.job_flow
           (Fixtures.reads "data:application/pdf;base64,JVBERg==")
           (Fixtures.reads "%PDF") []
           (Fixtures.with_file Fixtures.pdf_file)
           (Page.start Page.initial) Fixtures.pdf_file []
           "data:application/pdf;base64,JVBERg==" "%PDF");
    reflexivity.
Defined.

Lemma unreadable_file_stops_the_submission_witness :
  let after :=
    snd (Page.onSubmitHandler
           (Fixtures.answering (Fixtures.match_answer 82 "green"))
           Fixtures.job_flow Fixtures.read_fails (Fixtures.reads "OCaml") []
           (Fixtures.with_file Fixtures.txt_file)
           (Page.start Page.initial)) in
  Page.network after = []
  /\ Page.browser_console after
     = [console_error "Processing error:" ProgressEvent]
  /\ Page.render (Page.ui after) = error_view Page.unexpected_error.
Proof.
  apply (unreadable_file_stops_the_submission
           (Fixtures.answering (Fixtures.match_answer 82 "green"))
           Fixtures.job_flow Fixtures.read_fails (Fixtures.reads "OCaml") []
           (Fixtures.with_file Fixtures.txt_file)
           (Page.start Page.initial) Fixtures.txt_file []);
    reflexivity.
Defined.

Lemma all_returned_fills_the_panels_witness :
  Page.render
    (Page.ui
       (snd (Page.submit
               (Fixtures.answering (Fixtures.match_answer 82 "green"))
               Fixtures.job_flow
               (Fixtures.reads "data:text/plain;base64,T0NhbWw=")
               (Fixtures.reads "OCaml") []
               (Fixtures.with_file Fixtures.txt_file)
               (Page.start Page.initial))))
  = {| Page.spinner := false; Page.alert := None;
       Page.match_panel :=
         Some (Page.match_card
                 {| MatchCvToJob.matchScore := 82;
                    MatchCvToJob.highlightedCv := "<mark>Ten years</mark>
of OCaml.";
                    MatchCvToJob.colorCode := green |});
       Page.cv_panel :=
         Some {| AnalyzeCv.skills := ["OCaml"];
                 AnalyzeCv.experience := "Ten years.";
                 AnalyzeCv.qualifications := "MSc" |};
       Page.job_panel :=
         Some {| AnalyzeJobDescription.requiredSkills := ["Rocq"];
                 AnalyzeJobDescription.requiredExperience := "Five years.";
                 AnalyzeJobDescription.requiredQualifications := "BSc" |};
       Page.placeholder := false |}.
Proof.
  apply (all_returned_fills_the_panels
           (Fixtures.answering (Fixtures.match_answer 82 "green"))
           Fixtures.job_flow
           (Fixtures.reads "data:text/plain;base64,T0NhbWw=")
           (Fixtures.reads "OCaml") []
           (Fixtures.with_file Fixtures.txt_file)
           (Page.start Page.initial)
           {| AnalyzeCv.cvDataUri := "data:text/plain;base64,T0NhbWw=" |}
           {| AnalyzeJobDescription.jobDescription :=
                Fixtures.long_description |}
           {| MatchCvToJob.jobDescription := Fixtures.long_description;
              MatchCvToJob.cvContent := "OCaml" |});
    reflexivity.
Defined.

(* ================================================================== *)
(** ** More on the validation of the form *)

Lemma zodResolver_unset (values : Page.FormValues) :
  Page.cvFile values = None ->
  Page.zodResolver Page.formSchema values
  = Ret {| Page.jobDescription_message :=
             if Nat.ltb (String.length (Page.jobDescription values)) 50
             then Some "Job description must be at least 50 characters."
             else None;
           Page.cvFile_message := Some "CV file is required." |}.
Proof.
  intros Unset.
  unfold Page.zodResolver, Page.formSchema, Zod.z_string_min.
  rewrite Unset.
  destruct (Nat.ltb (String.length (Page.jobDescription values)) 50);
    reflexivity.
Qed.

Lemma valid_form_inv (values : Page.FormValues) :
  valid_form values = true ->
  exists f,
    Page.cvFile values = Some [f]
    /\ Nat.ltb (String.length (Page.jobDescription values)) 50 = false
    /\ N.leb (Page.size f) Page.MAX_SIZE = true
    /\ Page.allowed_type (Page.type f) = true.
Proof.
  unfold valid_form. intros Valid.
  apply andb_true_iff in Valid as [Long File].
  destruct (Page.cvFile values) as [[ | f [ | g rest]] | ];
    try discriminate File.
  apply andb_true_iff in File as [Small Allowed].
  exists f. repeat split; auto.
  apply Nat.ltb_ge. now apply Nat.leb_le.
Qed.

Section Validation.
Variable model : Model.
Variable analyzeJobDescription : AnalyzeJobDescription.Flow.
Variable readAsDataURL : Page.File -> option string.
Variable readAsText : Page.File -> option string.
Variable schedule : list nat.

#[local] Abbreviation onSubmitHandler :=
  (Page.onSubmitHandler model analyzeJobDescription readAsDataURL readAsText
                        schedule).
#[local] Abbreviation submit :=
  (Page.submit model analyzeJobDescription readAsDataURL readAsText schedule).

(** X13. A form the schema accepts reaches the handler: the field errors
    are cleared and the submission is the handler's run on the values. *)
Theorem valid_form_reaches_the_handler (values : Page.FormValues)
        (w : Page.World) :
  valid_form values = true ->
  submit values w
  = onSubmitHandler values (snd (Page.setFormErrors Page.no_errors w)).
Proof.
  intros Valid.
  apply valid_form_inv in Valid as (f & Attached & Long & Small & Allowed).
  pose proof (zodResolver_with_file values f [] Attached) as Resolved.
  rewrite Long, Small, Allowed in Resolved. cbn [List.length Nat.eqb negb]
    in Resolved.
  unfold Page.submit, Page.handleSubmit, bind, await.
  rewrite Resolved. reflexivity.
Qed.

(** X14. A request leaves the browser only for a form the schema
    accepts: a description of at least 50 characters and exactly one
    file, of at most 5 MB and of an allowed type. For any other form the
    submission sends nothing. *)
Theorem requests_only_from_a_valid_form (values : Page.FormValues)
        (w : Page.World) :
  Page.network (snd (submit values w)) <> Page.network w ->
  valid_form values = true.
Proof.
  intros Sent.
  destruct (valid_form values) eqn:Valid; [reflexivity | ].
  exfalso. apply Sent. clear Sent.
  unfold Page.submit, Page.handleSubmit, bind, await.
  destruct (Page.cvFile values) as [[ | f rest] | ] eqn:Attached.
  - destruct values as [description files]. cbn in Attached. subst files.
    now rewrite zodResolver_without_file.
  - rewrite (zodResolver_with_file values f rest Attached).
    unfold valid_form in Valid. rewrite Attached in Valid.
    unfold Page.setFormErrors, Page.setState at 1.
    destruct (Nat.ltb (String.length (Page.jobDescription values)) 50)
      eqn:Short; [reflexivity | ].
    destruct rest as [ | g rest]; [ | reflexivity].
    cbn [List.length Nat.eqb negb].
    destruct (N.leb (Page.size f) Page.MAX_SIZE); [ | reflexivity].
    destruct (Page.allowed_type (Page.type f)); [ | reflexivity].
    apply Nat.ltb_ge, Nat.leb_le in Short. rewrite Short in Valid.
    discriminate Valid.
  - rewrite (zodResolver_unset values Attached).
    unfold Page.setFormErrors, Page.setState at 1.
    now destruct (Nat.ltb (String.length (Page.jobDescription values)) 50).
Qed.

(** X15. With at least one file attached the resolver does not throw.
    The description gets the length message exactly when it is shorter
    than 50 characters, whatever the file; the file field gets the first
    failing check in the order of the declaration: the count, then the
    size of the first file, then its type. *)
Theorem field_messages_with_a_file (values : Page.FormValues)
        (f : Page.File) (rest : Page.FileList) :
  Page.cvFile values = Some (f :: rest) ->
  Page.zodResolver Page.formSchema values
  = Ret {| Page.jobDescription_message :=
             if Nat.ltb (String.length (Page.jobDescription values)) 50
             then Some "Job description must be at least 50 characters."
             else None;
           Page.cvFile_message :=
             match rest with
             | _ :: _ => Some "CV file is required."
             | [] =>
                 if negb (N.leb (Page.size f) Page.MAX_SIZE)
                 then Some "CV file size must be less than 5MB."
                 else if negb (Page.allowed_type (Page.type f))
                 then Some "CV must be a PDF, DOCX, DOC, or TXT file."
                 else None
             end |}.
Proof.
  intros Attached. rewrite (zodResolver_with_file values f rest Attached).
  now destruct rest.
Qed.

(** X16. A form whose file value is unset is blocked: the file field
    gets the required-file message, nothing else on the page changes and
    nothing is sent. *)
Theorem unset_file_is_blocked (values : Page.FormValues) (w : Page.World) :
  Page.cvFile values = None ->
  exists resolved,
    submit values w = Page.setFormErrors resolved w
    /\ Page.cvFile_message resolved = Some "CV file is required.".
Proof.
  intros Unset. eexists. split.
  - apply submit_blocked; [exact (zodResolver_unset values Unset) | ].
    unfold Page.isEmptyObject.
    cbn [Page.jobDescription_message Page.cvFile_message].
    now destruct (Nat.ltb (String.length (Page.jobDescription values)) 50).
  - reflexivity.
Qed.

End Validation.

Lemma valid_form_reaches_the_handler_witness :
  Page.submit (Fixtures.answering (Fixtures.match_answer 82 "green"))
              Fixtures.job_flow
              (Fixtures.reads "data:text/plain;base64,T0NhbWw=")
              (Fixtures.reads "OCaml") []
              (Fixtures.with_file Fixtures.txt_file)
              (Page.start Page.initial)
  = Page.onSubmitHandler
      (Fixtures.answering (Fixtures.match_answer 82 "green"))
      Fixtures.job_flow
      (Fixtures.reads "data:text/plain;base64,T0NhbWw=")
      (Fixtures.reads "OCaml") []
      (Fixtures.with_file Fixtures.txt_file)
      (snd (Page.setFormErrors Page.no_errors (Page.start Page.initial))).
Proof.
  apply (valid_form_reaches_the_handler
           (Fixtures.answering (Fixtures.match_answer 82 "green"))
           Fixtures.job_flow
           (Fixtures.reads "data:text/plain;base64,T0NhbWw=")
           (Fixtures.reads "OCaml") []
           (Fixtures.with_file Fixtures.txt_file)
           (Page.start Page.initial)).
  reflexivity.
Defined.

Lemma requests_only_from_a_valid_form_witness :
  valid_form (Fixtures.with_file Fixtures.txt_file) = true.
Proof.
  apply (requests_only_from_a_valid_form
           (Fixtures.answering (Fixtures.match_answer 82 "green"))
           Fixtures.job_flow
           (Fixtures.reads "data:text/plain;base64,T0NhbWw=")
           (Fixtures.reads "OCaml") []
           (Fixtures.with_file Fixtures.txt_file)
           (Page.start Page.initial)).
  vm_compute. discriminate.
Defined.

Lemma field_messages_with_a_file_witness :
  Page.zodResolver Page.formSchema
    {| Page.jobDescription := "Rocq engineer";
       Page.cvFile :=
         Some [ {| Page.name := "cv.zip"; Page.size := 6000000;
                   Page.type := "application/zip" |} ] |}
  = Ret {| Page.jobDescription_message :=
             Some "Job description must be at least 50 characters.";
           Page.cvFile_message :=
             Some "CV file size must be less than 5MB." |}.
Proof.
  apply (field_messages_with_a_file
           {| Page.jobDescription := "Rocq engineer";
              Page.cvFile :=
                Some [ {| Page.name := "cv.zip"; Page.size := 6000000;
                          Page.type := "application/zip" |} ] |}
           {| Page.name := "cv.zip"; Page.size := 6000000;
              Page.type := "application/zip" |} []).
  reflexivity.
Defined.

Lemma unset_file_is_blocked_witness :
  exists resolved,
    Page.submit (Fixtures.answering (Fixtures.match_answer 82 "green"))
                Fixtures.job_flow
                (Fixtures.reads "data:text/plain;base64,T0NhbWw=")
                (Fixtures.reads "OCaml") []
                {| Page.jobDescription := Fixtures.long_description;
                   Page.cvFile := None |}
                (Page.start Page.initial)
    = Page.setFormErrors resolved (Page.start Page.initial)
    /\ Page.cvFile_message resolved = Some "CV file is required.".
Proof.
  apply (unset_file_is_blocked
           (Fixtures.answering (Fixtures.match_answer 82 "green"))
           Fixtures.job_flow
           (Fixtures.reads "data:text/plain;base64,T0NhbWw=")
           (Fixtures.reads "OCaml") []
           {| Page.jobDescription := Fixtures.long_description;
              Page.cvFile := None |}
           (Page.start Page.initial)).
  reflexivity.
Defined.

Lemma short_description_is_blocked_witness :
  exists resolved,
    Page.submit (Fixtures.answering (Fixtures.match_answer 82 "green"))
                Fixtures.job_flow
                (Fixtures.reads "data:text/plain;base64,T0NhbWw=")
                (Fixtures.reads "OCaml") []
                {| Page.jobDescription := "Rocq engineer";
                   Page.cvFile := Some [Fixtures.txt_file] |}
                (Page.start Page.initial)
    = Page.setFormErrors resolved (Page.start Page.initial)
    /\ Page.jobDescription_message resolved
       = Some "Job description must be at least 50 characters."
    /\ Page.network
         (snd (Page.submit
                 (Fixtures.answering (Fixtures.match_answer 82 "green"))
                 Fixtures.job_flow
                 (Fixtures.reads "data:text/plain;base64,T0NhbWw=")
                 (Fixtures.reads "OCaml") []
                 {| Page.jobDescription := "Rocq engineer";
                    Page.cvFile := Some [Fixtures.txt_file] |}
                 (Page.start Page.initial)))
       = [].
Proof.
  apply (short_description_is_blocked
           (Fixtures.answering (Fixtures.match_answer 82 "green"))
           Fixtures.job_flow
           (Fixtures.reads "data:text/plain;base64,T0NhbWw=")
           (Fixtures.reads "OCaml") []
           {| Page.jobDescription := "Rocq engineer";
              Page.cvFile := Some [Fixtures.txt_file] |}
           (Page.start Page.initial) Fixtures.txt_file []).
  - reflexivity.
  - cbn. lia.
Defined.

Lemma bad_file_is_blocked_witness :
  exists resolved message,
    Page.submit (Fixtures.answering (Fixtures.match_answer 82 "green"))
                Fixtures.job_flow
                (Fixtures.reads "data:text/plain;base64,T0NhbWw=")
                (Fixtures.reads "OCaml") []
                {| Page.jobDescription := Fixtures.long_description;
                   Page.cvFile :=
                     Some [ {| Page.name := "cv.zip"; Page.size := 2048;
                               Page.type := "application/zip" |} ] |}
                (Page.start Page.initial)
    = Page.setFormErrors resolved (Page.start Page.initial)
    /\ Page.cvFile_message resolved = Some message
    /\ Page.network
         (snd (Page.submit
                 (Fixtures.answering (Fixtures.match_answer 82 "green"))
                 Fixtures.job_flow
                 (Fixtures.reads "data:text/plain;base64,T0NhbWw=")
                 (Fixtures.reads "OCaml") []
                 {| Page.jobDescription := Fixtures.long_description;
                    Page.cvFile :=
                      Some [ {| Page.name := "cv.zip"; Page.size := 2048;
                                Page.type := "application/zip" |} ] |}
                 (Page.start Page.initial)))
       = [].
Proof.
  apply (bad_file_is_blocked
           (Fixtures.answering (Fixtures.match_answer 82 "green"))
           Fixtures.job_flow
           (Fixtures.reads "data:text/plain;base64,T0NhbWw=")
           (Fixtures.reads "OCaml") []
           {| Page.jobDescription := Fixtures.long_description;
              Page.cvFile :=
                Some [ {| Page.name := "cv.zip"; Page.size := 2048;
                          Page.type := "application/zip" |} ] |}
           (Page.start Page.initial)
           {| Page.name := "cv.zip"; Page.size := 2048;
              Page.type := "application/zip" |} []).
  - reflexivity.
  - right. right. reflexivity.
Defined.

(* ================================================================== *)
(** ** The page across events *)

Lemma or_default_nonempty (m : option string) :
  String.eqb (Page.or_default m Page.unexpected_error) "" = false.
Proof.
  unfold Page.or_default.
  destruct m as [s | ]; [ | reflexivity].
  destruct (String.eqb s "") eqn:Empty; [reflexivity | exact Empty].
Qed.

Lemma mounted_at_rest : at_rest (Page.ui mounted).
Proof.
  split; [reflexivity | split; [reflexivity | split]].
  - left. repeat split; reflexivity.
  - left. reflexivity.
Qed.

Lemma after_event_at_rest (w : Page.World) (e : user_event) :
  at_rest (Page.ui w) -> at_rest (Page.ui (after_event w e)).
Proof.
  intros (Loading & Name & Results & Error).
  destruct e as [model flow rdu rt schedule values | ]; cbn [after_event].
  - unfold Page.submit, Page.handleSubmit, bind, await.
    destruct (Page.zodResolver Page.formSchema values) as [resolved | e];
      [ | now unfold at_rest].
    unfold Page.setFormErrors, Page.setState at 1.
    destruct (Page.isEmptyObject resolved); [ | now unfold at_rest].
    cbv beta.
    match goal with
    | |- context [Page.onSubmitHandler _ _ _ _ _ _ ?w1] =>
        destruct (onSubmitHandler_shape model flow rdu rt schedule values w1)
          as (w' & -> & Loading' & Name' & _ & Shape)
    end.
    cbn [snd]. unfold at_rest. cbn [Page.ui Page.fileName] in Name'.
    repeat split; [exact Loading' | congruence | | ].
    + destruct Shape as [(NoError & Stored) | (e & _ & Cleared)];
        [right | left]; auto.
    + destruct Shape as [(NoError & _) | (e & Stored & _)];
        [now left | right].
      eexists. split; [exact Stored | apply or_default_nonempty].
  - rewrite handleReset_run. cbn [snd Page.ui].
    split; [reflexivity | split; [reflexivity | split]].
    + left. repeat split; reflexivity.
    + left. reflexivity.
Qed.

Lemma after_events_at_rest (events : list user_event) (w : Page.World) :
  at_rest (Page.ui w) -> at_rest (Page.ui (after_events events w)).
Proof.
  revert w. unfold after_events.
  induction events as [ | e rest IH]; intros w Rest; [exact Rest | ].
  cbn [fold_left]. apply IH. now apply after_event_at_rest.
Qed.

(** X19. From the first render on, whatever is submitted and reset, with
    whatever files, the displayed file name stays unset: the initializer
    that would set it runs once, before any file is chosen, and neither
    a submission nor a reset stores a name. *)
Theorem file_name_is_never_displayed (events : list user_event) :
  Page.fileName (Page.ui (after_events events mounted)) = None.
Proof.
  now destruct (after_events_at_rest events mounted mounted_at_rest)
    as (_ & Name & _).
Qed.

(** X20. Between events the page never shows a part of the results, nor
    results beside the error banner: either none of the three panels is
    shown, or all three are and there is no banner; the spinner is off. *)
Theorem panels_appear_together (events : list user_event) :
  let view := Page.render (Page.ui (after_events events mounted)) in
  Page.spinner view = false
  /\ ((Page.match_panel view = None /\ Page.cv_panel view = None
       /\ Page.job_panel view = None)
      \/ (Page.alert view = None /\ Page.match_panel view <> None
          /\ Page.cv_panel view <> None /\ Page.job_panel view <> None)).
Proof.
  destruct (after_events_at_rest events mounted mounted_at_rest)
    as (Loading & _ & Results & _).
  unfold Page.render.
  cbn [Page.spinner Page.alert Page.match_panel Page.cv_panel Page.job_panel].
  split; [exact Loading | ].
  destruct Results as [(Cv & Job & Match) | (NoError & a & b & c & Cv & Job & Match)];
    rewrite Cv, Job, Match.
  - now left.
  - right. rewrite NoError. repeat split; discriminate.
Qed.

(** X21. The placeholder card is shown exactly when nothing else is:
    no spinner, no banner and none of the three result panels. *)
Theorem placeholder_exactly_when_empty (s : Page.State) :
  Page.placeholder (Page.render s) = true
  <-> Page.spinner (Page.render s) = false
      /\ Page.alert (Page.render s) = None
      /\ Page.match_panel (Page.render s) = None
      /\ Page.cv_panel (Page.render s) = None
      /\ Page.job_panel (Page.render s) = None.
Proof.
  unfold Page.render.
  cbn [Page.placeholder Page.spinner Page.alert Page.match_panel
       Page.cv_panel Page.job_panel].
  destruct (Page.isLoading s), (Page.cvAnalysis s), (Page.jobAnalysis s),
    (Page.matchResult s), (Page.truthy (Page.error s)); cbn;
    split; intros H; try discriminate H; try reflexivity;
    try (repeat split; reflexivity);
    destruct H as (? & ? & ? & ? & ?); discriminate.
Qed.

(* ================================================================== *)
(** ** More on the highlight *)

Lemma string_app_assoc (a b c : string) :
  ((a ++ b) ++ c)%string = (a ++ (b ++ c))%string.
Proof.
  induction a as [ | x a IH]; simpl; [reflexivity | now rewrite IH].
Qed.

Lemma occurs_app (c : ascii) (a b : string) :
  occurs c (a ++ b) = occurs c a || occurs c b.
Proof.
  induction a as [ | x a IH]; simpl; [reflexivity | ].
  now rewrite IH, orb_assoc.
Qed.

Lemma replace_newlines_no_newline (replacement s : string) :
  occurs Page.LF replacement = false ->
  occurs Page.LF (Page.replace_newlines replacement s) = false.
Proof.
  intros Clean. induction s as [ | a rest IH]; simpl; [reflexivity | ].
  destruct (Ascii.eqb a Page.LF) eqn:Newline.
  - now rewrite occurs_app, Clean, IH.
  - simpl. now rewrite Newline, IH.
Qed.

(** X22. The markup handed to the highlight panel contains no newline
    character, whatever the response's text. *)
Theorem highlight_has_no_newline (r : MatchCvToJob.Output) :
  occurs Page.LF (Page.innerHTML (Page.match_card r)) = false.
Proof.
  unfold Page.match_card. cbn [Page.innerHTML].
  now apply replace_newlines_no_newline.
Qed.

(** X23. Replacing the newlines of a text is done piece by piece: the
    result for two texts put end to end is the two results put end to
    end, so no replacement depends on its surroundings. *)
Theorem replace_newlines_app (replacement a b : string) :
  Page.replace_newlines replacement (a ++ b)
  = (Page.replace_newlines replacement a
     ++ Page.replace_newlines replacement b)%string.
Proof.
  induction a as [ | x a IH]; simpl; [reflexivity | ].
  destruct (Ascii.eqb x Page.LF); rewrite IH.
  - now rewrite string_app_assoc.
  - reflexivity.
Qed.

(* ================================================================== *)
(** ** The analysis cards *)

Lemma badges_from_children (i : nat) (skills : list string) :
  map Cards.children (Cards.badges_from i skills) = skills.
Proof.
  revert i. induction skills as [ | skill rest IH]; intros i; simpl;
    [reflexivity | now rewrite IH].
Qed.

(** X24. A card shows one badge for each skill, with the skill as its
    text and in the order of the response, and shows the note instead
    exactly when the response has no skill. *)
Theorem skill_badges_follow_the_response (skills : list string) :
  match Cards.skill_list skills with
  | Cards.badges items =>
      skills <> [] /\ map Cards.children items = skills
  | Cards.note text =>
      skills = [] /\ text = "No specific skills identified."
  end.
Proof.
  unfold Cards.skill_list.
  destruct skills as [ | skill rest]; cbn [List.length Nat.ltb Nat.leb].
  - split; reflexivity.
  - split; [discriminate | apply badges_from_children].
Qed.

Lemma decimal_has_no_dash (d : Decimal.uint) :
  after_last "-" (NilEmpty.string_of_uint d) = None.
Proof.
  induction d; simpl; try rewrite IHd; reflexivity.
Qed.

Lemma after_last_app (c : ascii) (s tail : string) :
  after_last c tail = None ->
  after_last c (s ++ String c tail) = Some tail.
Proof.
  intros Clean. induction s as [ | a s IH]; simpl.
  - now rewrite Clean, Ascii.eqb_refl.
  - now rewrite IH.
Qed.

Lemma decimal_inj (i j : nat) : Cards.decimal i = Cards.decimal j -> i = j.
Proof.
  unfold Cards.decimal. intros Same.
  apply (f_equal NilEmpty.uint_of_string) in Same.
  rewrite !NilEmpty.usu in Same. injection Same as Same.
  now apply DecimalNat.Unsigned.to_uint_inj.
Qed.

(** The index of a badge can be read back from its key. *)
Lemma key_index (i : nat) (skills : list string) (k : string) :
  In k (map Cards.key (Cards.badges_from i skills)) ->
  exists j, (i <= j)%nat /\ after_last "-" k = Some (Cards.decimal j).
Proof.
  revert i. induction skills as [ | skill rest IH]; intros i; simpl;
    [contradiction | ].
  intros [<- | Later].
  - exists i. split; [lia | ].
    apply (after_last_app "-" skill (Cards.decimal i)).
    apply decimal_has_no_dash.
  - apply IH in Later as (j & Above & Index). exists j. split; [lia | auto].
Qed.

Lemma badges_from_keys (i : nat) (skills : list string) :
  NoDup (map Cards.key (Cards.badges_from i skills)).
Proof.
  revert i. induction skills as [ | skill rest IH]; intros i; simpl;
    constructor; [ | apply IH].
  intros Again. apply key_index in Again as (j & Above & Index).
  rewrite (after_last_app "-" skill (Cards.decimal i)) in Index
    by apply decimal_has_no_dash.
  injection Index as Same. apply decimal_inj in Same. lia.
Qed.

(** X25. The keys of the badges of a card are pairwise distinct, also
    when a skill is listed twice or contains dashes and digits itself. *)
Theorem badge_keys_are_distinct (skills : list string) :
  match Cards.skill_list skills with
  | Cards.badges items => NoDup (map Cards.key items)
  | Cards.note _ => skills = []
  end.
Proof.
  unfold Cards.skill_list.
  destruct skills as [ | skill rest]; cbn [List.length Nat.ltb Nat.leb].
  - reflexivity.
  - apply badges_from_keys.
Qed.

(** Two equal skills, and a skill that ends like a key. *)
Example keys_of_repeated_skills :
  map Cards.key (Cards.badges_from 0 ["OCaml"; "OCaml"; "OCaml-1"])
  = ["OCaml-0"; "OCaml-1"; "OCaml-1-2"].
Proof. reflexivity. Qed.

(* ================================================================== *)
(** ** A text file that cannot be decoded *)

(** X26. For a text/plain file whose data URL was read, a failed text
    decode is not replaced by the fallback text: nothing is sent, the
    failure is logged as a processing error, without the warning, and
    the page shows the default message. *)
Theorem unreadable_text_file_sends_nothing (model : Model)
        (analyzeJobDescription : AnalyzeJobDescription.Flow)
        (readAsDataURL readAsText : Page.File -> option string)
        (schedule : list nat) (data : Page.FormValues) (w : Page.World)
        (f : Page.File) (rest : Page.FileList) (uri : string) :
  Page.cvFile data = Some (f :: rest) ->
  Page.type f = "text/plain" ->
  readAsDataURL f = Some uri ->
  readAsText f = None ->
  let after :=
    snd (Page.onSubmitHandler model analyzeJobDescription readAsDataURL
                              readAsText schedule data w) in
  Page.network after = Page.network w
  /\ Page.browser_console after
     = Page.browser_console w
       ++ [console_error "Processing error:" ProgressEvent]
  /\ Page.render (Page.ui after) = error_view Page.unexpected_error.
Proof.
  intros Attached Plain Url Text after. subst after.
  run_handler. unfold Page.cvFile_0. rewrite Attached. cbn.
  rewrite Url. cbn. rewrite Plain, String.eqb_refl, Text. cbn.
  repeat split.
Qed.

Lemma unreadable_text_file_sends_nothing_witness :
  let after :=
    snd (Page.onSubmitHandler
           (Fixtures.answering (Fixtures.match_answer 82 "green"))
           Fixtures.job_flow
           (Fixtures.reads "data:text/plain;base64,T0NhbWw=")
           Fixtures.read_fails []
           (Fixtures.with_file Fixtures.txt_file)
           (Page.start Page.initial)) in
  Page.network after = []
  /\ Page.browser_console after
     = [console_error "Processing error:" ProgressEvent]
  /\ Page.render (Page.ui after) = error_view Page.unexpected_error.
Proof.
  apply (unreadable_text_file_sends_nothing
           (Fixtures.answering (Fixtures.match_answer 82 "green"))
           Fixtures.job_flow
           (Fixtures.reads "data:text/plain;base64,T0NhbWw=")
           Fixtures.read_fails []
           (Fixtures.with_file Fixtures.txt_file)
           (Page.start Page.initial) Fixtures.txt_file []
           "data:text/plain;base64,T0NhbWw=");
    reflexivity.
Defined.
